(** * server.js: rate quote cache and newsletter subscription

    A shallow embedding of [src/server.js].  The two request handlers,
    [handleRate] and [handleSubscribe], the helpers they call, [serveStatic]
    and the request listener are written as programs of a small
    state-and-exception monad.  The state holds the one
    module-level variable of the file ([fredCache]), [process.env], the
    outside world (the clock and the two upstream services) and, as ghost
    state, the list of [fetch] calls made so far.

    What is not part of the file is a parameter:
    - the JavaScript built-ins whose algorithm is not modelled ([JSON.parse],
      [JSON.stringify], [parseFloat], [encodeURIComponent], number
      formatting, [toISOString], the text of engine-raised [TypeError]s):
      class [Builtins];
    - the network and the clock: class [Upstream];
    - what the dispatcher and [serveStatic] use of Node (the [path]
      functions, the two [fs] queries, the URL parser): class [Platform].

    Values that come from a client (the request body) or from the series API
    are untyped JSON values, handled with JavaScript's rules for truthiness,
    property access and conversion to string.  The answer of the mailing-list
    search is read by its documented shape (record [subscriber]).  Numbers
    are binary64 floats.  Strings are byte strings; the file searches them
    for ASCII text only, and their encoding for a URL, which fails on a
    malformed string, is one of the built-ins taken as parameters. *)

From Stdlib Require Import ZArith Ascii String List Bool Lia PrimFloat.
From stdpp Require Import base option list strings gmap.
Import ListNotations.

#[local] Set Warnings "-register-all,-inexact-float".
#[local] Open Scope string_scope.

(** ** JavaScript values *)

(** Values that [JSON.parse] can produce, and [undefined].  An object is the
    list of its own properties in insertion order, each key once. *)
Inductive js_value : Type :=
| JUndefined
| JNull
| JBool (b : bool)
| JNum (x : float)
| JStr (s : string)
| JArr (items : list js_value)
| JObj (props : list (string * js_value)).

(** [ToBoolean]: [undefined], [null], [false], [0], [-0], [NaN] and [""] are
    falsy, everything else (every array and object too) is truthy. *)
Definition truthy (v : js_value) : bool :=
  match v with
  | JUndefined | JNull => false
  | JBool b => b
  | JNum x => negb (is_zero x || is_nan x)
  | JStr s => negb (String.eqb s "")
  | JArr _ | JObj _ => true
  end.

(** [a || b] on values. *)
Definition js_or (a b : js_value) : js_value := if truthy a then a else b.

(** [a !== b] where [b] is a string literal. *)
Definition strict_neq_str (a : js_value) (lit : string) : bool :=
  match a with
  | JStr s => negb (String.eqb s lit)
  | _ => true
  end.

(** [SameValueZero], the comparison of [Array.prototype.includes].  Arrays and
    objects compare by identity, and the two sides of every comparison below
    come from different [JSON.parse] results, so they are never the same
    object. *)
Definition same_value_zero (a b : js_value) : bool :=
  match a, b with
  | JUndefined, JUndefined => true
  | JNull, JNull => true
  | JBool x, JBool y => Bool.eqb x y
  | JNum x, JNum y => (x =? y)%float || (is_nan x && is_nan y)
  | JStr x, JStr y => String.eqb x y
  | _, _ => false
  end.

(** [hay.startsWith(needle)] and [hay.includes(needle)] on strings.  The
    needles of the file are ASCII, for which matching on bytes and matching on
    UTF-16 code units agree. *)
Fixpoint starts_with (needle hay : string) : bool :=
  match needle, hay with
  | EmptyString, _ => true
  | String _ _, EmptyString => false
  | String a needle', String b hay' => Ascii.eqb a b && starts_with needle' hay'
  end.

Fixpoint String_includes (hay needle : string) : bool :=
  starts_with needle hay
  || match hay with
     | EmptyString => false
     | String _ hay' => String_includes hay' needle
     end.

(** Own data property [name] of an object ([undefined] when absent).  Used
    only with names that no built-in prototype defines ([email], [value],
    [detail], ...), so a primitive or an array has none of them. *)
Fixpoint assoc (name : string) (props : list (string * js_value)) : js_value :=
  match props with
  | [] => JUndefined
  | (k, v) :: rest => if String.eqb k name then v else assoc name rest
  end.

Definition own_prop (v : js_value) (name : string) : js_value :=
  match v with
  | JObj props => assoc name props
  | _ => JUndefined
  end.

Definition has_own (name : string) (props : list (string * js_value)) : bool :=
  existsb (fun kv => String.eqb (fst kv) name) props.

(** ** Numbers: [Math.round] on binary64 *)

#[local] Open Scope float_scope.

Definition two52 : float := 4503599627370496.

(** Nearest integer to [a >= 0]; a tie goes up when [half_up], down
    otherwise.  From [2^52] on every binary64 value is an integer.  Below,
    [(a + 2^52) - 2^52] is [a] rounded to an integer (ties to even), from which
    the floor and the exact fractional part follow. *)
Definition round_magnitude (half_up : bool) (a : float) : float :=
  if a <? two52 then
    let t := (a + two52) - two52 in
    let f := if a <? t then t - 1 else t in
    let d := a - f in
    if (if half_up then 0.5 <=? d else 0.5 <? d) then f + 1 else f
  else a.

(** [Math.round(x)]: the integer nearest to [x], ties toward [+Infinity];
    [NaN] and the infinities are returned as they are, and a negative [x] that
    rounds to zero gives [-0]. *)
Definition Math_round (x : float) : float :=
  if is_nan x then x
  else if get_sign x then - round_magnitude false (abs x)
  else round_magnitude true x.

#[local] Close Scope float_scope.

(** ** Exceptions *)

(** The [TypeError]s the engine itself raises in this file.  Their message
    text is the engine's. *)
Inductive runtime_fault : Type :=
| ReadOfNullish     (* a property read or a destructuring of null or undefined *)
| NotAFunction      (* email.includes where email has no such method *)
| NotPrimitive.     (* ToString of an object that cannot be converted *)

(** A thrown [Error]: only its [message] is ever read. *)
Record js_error : Type := Error { message : string }.

Inductive completion (A : Type) : Type :=
| Return (a : A)
| Throw (e : js_error).
Arguments Return {A} a.
Arguments Throw {A} e.

(** ** Built-ins taken as parameters *)

Class Builtins : Type := {
  (** [JSON.parse(text)]; throws a [SyntaxError] on malformed text. *)
  JSON_parse : string -> completion js_value;
  (** [JSON.stringify(value)]. *)
  JSON_stringify : js_value -> string;
  (** [parseFloat] on a string. *)
  parseFloat : string -> float;
  (** [Number.prototype.toString]. *)
  Number_toString : float -> string;
  (** [new Date(ms).toISOString()]. *)
  Date_toISOString : Z -> string;
  (** [encodeURIComponent] on a string; throws a [URIError] when the string
      holds a lone surrogate. *)
  encodeURIComponent : string -> completion string;
  (** Message of an engine-raised [TypeError]. *)
  TypeError_message : runtime_fault -> string
}.

Definition TypeError `{Builtins} (f : runtime_fault) : js_error :=
  Error (TypeError_message f).

(** ** Conversions and methods that can throw *)

Section Conversions.
Context `{Builtins}.

(** [ToString], as applied by template literals, [new Error(msg)],
    [encodeURIComponent] (to its argument, before encoding) and
    [parseFloat].  An array is joined with commas
    ([null] and [undefined] elements give the empty string); a plain object
    gives ["[object Object]"], unless it has an own [toString] property, which
    after [JSON.parse] is never callable: then the conversion throws. *)
Fixpoint ToString (v : js_value) : completion string :=
  match v with
  | JUndefined => Return "undefined"
  | JNull => Return "null"
  | JBool true => Return "true"
  | JBool false => Return "false"
  | JNum x => Return (Number_toString x)
  | JStr s => Return s
  | JArr items =>
      (fix join (l : list js_value) : completion string :=
         match l with
         | [] => Return ""
         | e :: rest =>
             let piece :=
               match e with
               | JUndefined | JNull => Return ""
               | _ => ToString e
               end in
             match piece with
             | Throw err => Throw err
             | Return s =>
                 match rest with
                 | [] => Return s
                 | _ :: _ =>
                     match join rest with
                     | Throw err => Throw err
                     | Return t => Return (s ++ "," ++ t)
                     end
                 end
             end
         end) items
  | JObj props =>
      if has_own "toString" props then Throw (TypeError NotPrimitive)
      else Return "[object Object]"
  end.

(** [v.includes(needle)]: substring search on a string, membership on an
    array, and a [TypeError] on anything else (no [includes] method, or an own
    property of that name that is not callable). *)
Definition js_includes (v needle : js_value) : completion bool :=
  match v with
  | JStr s =>
      match ToString needle with
      | Return n => Return (String_includes s n)
      | Throw e => Throw e
      end
  | JArr items => Return (existsb (same_value_zero needle) items)
  | _ => Throw (TypeError NotAFunction)
  end.

(** [v.name] as evaluated by a property access or a destructuring pattern:
    throws on [null] and [undefined]. *)
Definition get_prop (v : js_value) (name : string) : completion js_value :=
  match v with
  | JUndefined | JNull => Throw (TypeError ReadOfNullish)
  | _ => Return (own_prop v name)
  end.

End Conversions.

(** ** The outside world *)

(** [process.env], as far as the file reads it. *)
Record process_env : Type := {
  FRED_API_KEY : option string;
  FRED_SERIES_ID : option string;
  BUTTONDOWN_API_KEY : option string
}.

(** Truthiness of an environment variable: set and not empty. *)
Definition env_set (v : option string) : bool :=
  match v with
  | Some s => negb (String.eqb s "")
  | None => false
  end.

(** [v || dflt] on an environment variable. *)
Definition env_or (v : option string) (dflt : string) : string :=
  match v with
  | Some s => if String.eqb s "" then dflt else s
  | None => dflt
  end.

(** A subscriber as the mailing-list service returns it from a search.  The
    shape is the service's: [tags] and [metadata] may be missing, which the
    code covers with [|| []] and [|| {}]. *)
Record subscriber : Type := {
  sub_id : string;
  sub_tags : option (list js_value);
  sub_metadata : option (gmap string js_value)
}.

(** Body of a search response: [{ results: [...] }], [results] possibly
    missing. *)
Record search_data : Type := { results : option (list subscriber) }.

(** The four [fetch] calls of the file, by what they send. *)
Inductive request : Type :=
| GetObservations (series_id api_key file_type sort_order limit : string)
| PostSubscriber (key : string) (email_address : js_value)
    (tags : list js_value) (metadata : gmap string js_value)
| GetSubscribers (key : string) (email : string)   (* the text after ?email= *)
| PatchSubscriber (key : string) (id : string)
    (tags : list js_value) (metadata : gmap string js_value).

(** What [resp.json()] yields for each request: the search answer is read by
    its documented shape, the others as plain JSON values. *)
Definition json_of (r : request) : Type :=
  match r with
  | GetSubscribers _ _ => search_data
  | _ => js_value
  end.

(** A response: [resp.ok], and the two ways the file reads a body,
    [await resp.text()] and [await resp.json()], either of which may throw. *)
Record response (J : Type) : Type := {
  ok : bool;
  text : completion string;
  json : completion J
}.
Arguments ok {J} r.
Arguments text {J} r.
Arguments json {J} r.

(** [await fetch(...)] either rejects or resolves to a response. *)
Inductive fetched (J : Type) : Type :=
| Rejected (e : js_error)
| Responded (resp : response J).
Arguments Rejected {J} e.
Arguments Responded {J} resp.

(** The world [W] answers [Date.now()] and every [fetch]; a [fetch] may change
    it (the upstream stores subscribers, time passes). *)
Class Upstream (W : Type) : Type := {
  Date_now : W -> Z;
  http : forall r : request, W -> fetched (json_of r) * W
}.

(** ** Rate quotes and the cache *)

(** The payload of [/api/rate].  [rawPercent] is [None] for [null]. *)
Record rate_quote : Type := {
  ratePercent : float;
  rawPercent : option float;
  adjustedAdded : float;
  observationDate : js_value;
  source : string
}.

(** [fredCache = { ts, payload }]. *)
Record cache_entry : Type := { ts : Z; payload : rate_quote }.

(** ** Program state and the monad of handlers *)

Section Machine.
Context {W : Type}.

Record state : Type := {
  world : W;
  env : process_env;
  fredCache : option cache_entry;
  requests : list request       (* ghost: every fetch made, oldest first *)
}.

Definition M (A : Type) : Type := state -> completion A * state.

Definition ret {A} (a : A) : M A := fun st => (Return a, st).

Definition throw {A} (e : js_error) : M A := fun st => (Throw e, st).

Definition bind {A B} (m : M A) (k : A -> M B) : M B :=
  fun st =>
    match m st with
    | (Return a, st') => k a st'
    | (Throw e, st') => (Throw e, st')
    end.

(** A pure computation that may throw. *)
Definition lift {A} (c : completion A) : M A := fun st => (c, st).

(** [try { m } catch (e) { handler e }]: effects of [m] up to the throw
    stay. *)
Definition try_catch {A} (m : M A) (handler : js_error -> M A) : M A :=
  fun st =>
    match m st with
    | (Return a, st') => (Return a, st')
    | (Throw e, st') => handler e st'
    end.

Definition get_env : M process_env := fun st => (Return (env st), st).

Definition get_fredCache : M (option cache_entry) :=
  fun st => (Return (fredCache st), st).

Definition set_fredCache (c : option cache_entry) : M unit :=
  fun st =>
    (Return tt,
     {| world := world st; env := env st; fredCache := c;
        requests := requests st |}).

End Machine.
Arguments state W : clear implicits.
Arguments M W A : clear implicits.

Declare Scope js_scope.
Delimit Scope js_scope with js.
Notation "x <- m ;; k" := (bind m (fun x => k))
  (at level 100, m at next level, right associativity) : js_scope.
Notation "m ;;; k" := (bind m (fun _ => k))
  (at level 100, right associativity) : js_scope.

Section Effects.
Context {W : Type} `{Upstream W}.

(** [Date.now()]. *)
Definition now : M W Z := fun st => (Return (Date_now (world st)), st).

(** [await fetch(r)]: the world answers and moves on; the call is recorded. *)
Definition fetch (r : request) : M W (response (json_of r)) :=
  fun st =>
    let (answer, w') := http r (world st) in
    let st' := {| world := w'; env := env st; fredCache := fredCache st;
                  requests := requests st ++ [r] |} in
    match answer with
    | Rejected e => (Throw e, st')
    | Responded resp => (Return resp, st')
    end.

End Effects.

(** ** What a handler writes to [res] *)

(** The JSON bodies the handlers send.  The three CORS and content-type
    headers are the same on every path and are left out. *)
Inductive reply_body : Type :=
| NoBody                                  (* .end() *)
| ErrorJson (error : string)              (* { error } *)
| SuccessJson (msg : string)              (* { success: true, message } *)
| QuoteJson (quote : rate_quote).         (* the payload itself *)

Record reply : Type := {
  status : Z;
  cache_control : option string;
  body : reply_body
}.

Definition plain (code : Z) (b : reply_body) : reply :=
  {| status := code; cache_control := None; body := b |}.

(** ** The functions of server.js *)

Section Server.
Context {W : Type} `{Builtins} `{Upstream W}.
#[local] Open Scope js_scope.

(** [Array.isArray(v)], and the elements of [v] when it is an array. *)
Definition is_array (v : js_value) : bool :=
  match v with
  | JArr _ => true
  | _ => false
  end.

Definition array_items (v : js_value) : list js_value :=
  match v with
  | JArr items => items
  | _ => []
  end.

(** [o => o && o.value && o.value !== '.'], as a truth value. *)
Definition valid_observation (o : js_value) : bool :=
  truthy o && truthy (own_prop o "value")
  && strict_neq_str (own_prop o "value") ".".

(** [fetchFredLatest()]; [None] is [null]. *)
Definition fetchFredLatest : M W (option rate_quote) :=
  e <- get_env ;;
  let seriesId := env_or (FRED_SERIES_ID e) "MORTGAGE30US" in
  match FRED_API_KEY e with
  | None => ret None
  | Some key =>
      if String.eqb key "" then ret None
      else
        try_catch
          (resp <- fetch (GetObservations seriesId key "json" "desc" "14") ;;
           if negb (ok resp) then ret None
           else
             data <- lift (json resp) ;;
             (* data && data.observations *)
             listed <- lift (if truthy data then get_prop data "observations"
                             else Return data) ;;
             obs <- (if is_array listed
                     then (o <- lift (get_prop data "observations") ;;
                           ret (array_items o))
                     else ret []) ;;
             match find valid_observation obs with
             | None => ret None
             | Some firstValid =>
                 value <- lift (get_prop firstValid "value") ;;
                 digits <- lift (ToString value) ;;
                 let raw := parseFloat digits in
                 if negb (is_finite raw) then ret None
                 else
                   let adjusted := (raw + 0.5)%float in
                   let rounded := (Math_round (adjusted * 10) / 10)%float in
                   date <- lift (get_prop firstValid "date") ;;
                   ret (Some {| ratePercent := rounded;
                                rawPercent := Some raw;
                                adjustedAdded := 0.5%float;
                                observationDate := date;
                                source := seriesId |})
             end)
          (fun _ => ret None)
  end.

Definition fallback_quote : rate_quote :=
  {| ratePercent := 5.5%float;
     rawPercent := None;
     adjustedAdded := 0.5%float;
     observationDate := JNull;
     source := "fallback" |}.

Definition TTL : Z := 60 * 60 * 1000.

(** The cache entry that [fredCache && now - fredCache.ts < TTL] lets
    through. *)
Definition fresh_entry (t : Z) (cache : option cache_entry)
  : option cache_entry :=
  match cache with
  | Some c => if (t - ts c <? TTL)%Z then Some c else None
  | None => None
  end.

Definition quote_reply (q : rate_quote) : reply :=
  {| status := 200;
     cache_control := Some "public, max-age=3600";
     body := QuoteJson q |}.

(** [handleRate(req, res)], by [req.method]. *)
Definition handleRate (method : string) : M W reply :=
  if String.eqb method "OPTIONS" then ret (plain 204 NoBody)
  else if negb (String.eqb method "GET")
  then ret (plain 405 (ErrorJson "Method not allowed"))
  else
    t <- now ;;
    cache <- get_fredCache ;;
    match fresh_entry t cache with
    | Some c => ret (quote_reply (payload c))
    | None =>
        data <- fetchFredLatest ;;
        let payload := match data with Some q => q | None => fallback_quote end in
        set_fredCache (Some {| ts := t; payload := payload |}) ;;;
        ret (quote_reply payload)
    end.

(** [let body = ''; for await (const chunk of req) body += chunk]. *)
Definition body_text (chunks : list string) : string :=
  fold_left String.append chunks "".

(** [parseJsonBody(req)]: the text of the body, or ['{}'] when it is empty,
    is parsed; a text that does not parse gives the empty object. *)
Definition parseJsonBody (chunks : list string) : M W js_value :=
  let body := body_text chunks in
  try_catch
    (lift (JSON_parse (if String.eqb body "" then "{}" else body)))
    (fun _ => ret (JObj [])).

(** The [metadata] object of the create request:
    [{ settlementName: name, subscribedAt, ...(deadline ? { deadline } : {}) }]. *)
Definition create_metadata (name deadline : js_value) (subscribedAt : string)
  : gmap string js_value :=
  let base : gmap string js_value :=
    <["settlementName" := name]> (<["subscribedAt" := JStr subscribedAt]> ∅) in
  if truthy deadline then <["deadline" := deadline]> base else base.

(** [subscribeToButtondown(email, tag, name, deadline)]. *)
Definition subscribeToButtondown (email tag name deadline : js_value)
  : M W js_value :=
  e <- get_env ;;
  match BUTTONDOWN_API_KEY e with
  | None => throw (Error "BUTTONDOWN_API_KEY not set")
  | Some key =>
      if String.eqb key "" then throw (Error "BUTTONDOWN_API_KEY not set")
      else
        t <- now ;;
        resp <- fetch (PostSubscriber key email [tag]
                         (create_metadata name deadline (Date_toISOString t))) ;;
        if negb (ok resp) then
          text <- lift (text resp) ;;
          msg <- try_catch
                   (e <- lift (JSON_parse text) ;;
                    detail <- lift (get_prop e "detail") ;;
                    code <- lift (get_prop e "code") ;;
                    ret (js_or (js_or detail code) (JStr text)))
                   (fun _ => ret (JStr text)) ;;
          m <- lift (ToString msg) ;;
          throw (Error m)
        else lift (json resp)
  end.

(** [(sub.tags || []).includes(tag) ? sub.tags : [...(sub.tags || []), tag]]. *)
Definition updatedTags (tags : option (list js_value)) (tag : js_value)
  : list js_value :=
  let present := default [] tags in
  if existsb (fun x => same_value_zero x tag) present then present
  else present ++ [tag].

(** [JSON.stringify({ name, deadline, subscribedAt })]. *)
Definition settlement_record (name deadline : js_value) (subscribedAt : string)
  : js_value :=
  JStr (JSON_stringify (JObj [("name", name); ("deadline", deadline);
                              ("subscribedAt", JStr subscribedAt)])).

(** [updateButtondownSubscriber(email, tag, name, deadline)]. *)
Definition updateButtondownSubscriber (email tag name deadline : js_value)
  : M W js_value :=
  e <- get_env ;;
  match BUTTONDOWN_API_KEY e with
  | None => throw (Error "BUTTONDOWN_API_KEY not set")
  | Some key =>
      if String.eqb key "" then throw (Error "BUTTONDOWN_API_KEY not set")
      else
        (* encodeURIComponent(email): ToString, then the encoding, which
           throws on a malformed string before anything is sent *)
        address <- lift (ToString email) ;;
        encoded <- lift (encodeURIComponent address) ;;
        search <- fetch (GetSubscribers key encoded) ;;
        if negb (ok search) then throw (Error "Failed to find subscriber")
        else
          data <- lift (json search) ;;
          match results data with
          | None | Some [] => throw (Error "Subscriber not found")
          | Some (sub :: _) =>
              let tags := updatedTags (sub_tags sub) tag in
              (* meta = sub.metadata || {}; the assignment below changes the
                 object in place, which nothing reads again but the patch *)
              let meta := default ∅ (sub_metadata sub) in
              suffix <- lift (ToString tag) ;;
              let settlementKey := "settlement_" ++ suffix in
              t <- now ;;
              let meta := <[settlementKey :=
                             settlement_record name deadline (Date_toISOString t)]>
                            meta in
              upd <- fetch (PatchSubscriber key (sub_id sub) tags meta) ;;
              if negb (ok upd) then
                text <- lift (text upd) ;;
                throw (Error text)
              else lift (json upd)
          end
  end.

Definition created_message : string :=
  "Successfully subscribed! You'll receive a reminder before the deadline.".

Definition updated_message : string := "Settlement added to your subscriptions!".

(** [handleSubscribe(req, res)], by [req.method] and the chunks of the request
    body. *)
Definition handleSubscribe (method : string) (chunks : list string)
  : M W reply :=
  if String.eqb method "OPTIONS" then ret (plain 204 NoBody)
  else if negb (String.eqb method "POST")
  then ret (plain 405 (ErrorJson "Method not allowed"))
  else
    try_catch
      (parsed <- parseJsonBody chunks ;;
       (* const { email, settlementId, settlementName, deadline } = ... *)
       email <- lift (get_prop parsed "email") ;;
       let settlementId := own_prop parsed "settlementId" in
       let settlementName := own_prop parsed "settlementName" in
       let deadline := own_prop parsed "deadline" in
       (* !email || !email.includes('@') *)
       invalid <- (if negb (truthy email) then ret true
                   else (found <- lift (js_includes email (JStr "@")) ;;
                         ret (negb found))) ;;
       if invalid : bool then ret (plain 400 (ErrorJson "Invalid email address"))
       else if negb (truthy settlementId) || negb (truthy settlementName)
       then ret (plain 400 (ErrorJson "Missing required fields"))
       else
         try_catch
           (subscribeToButtondown email settlementId settlementName
              (js_or deadline JNull) ;;;
            ret (plain 200 (SuccessJson created_message)))
           (fun e =>
              (* (e.message || '').includes('already subscribed') *)
              if String_includes (message e) "already subscribed" then
                updateButtondownSubscriber email settlementId settlementName
                  (js_or deadline JNull) ;;;
                ret (plain 200 (SuccessJson updated_message))
              else throw e))
      (fun e =>
         (* { error: e.message || 'Failed to subscribe. Please try again.' } *)
         ret (plain 500
                (ErrorJson (if String.eqb (message e) ""
                            then "Failed to subscribe. Please try again."
                            else message e)))).

End Server.

(** ** Notions used in the statements *)

Section Notions.
Context {W : Type} `{Builtins} `{Upstream W}.

(** State after a [fetch] of [r] that the world answered by moving to [w1]. *)
Definition fetched_state (st : state W) (r : request) (w1 : W) : state W :=
  {| world := w1; env := env st; fredCache := fredCache st;
     requests := requests st ++ [r] |}.

(** [st] with its cache entry replaced. *)
Definition with_cache (st : state W) (c : cache_entry) : state W :=
  {| world := world st; env := env st; fredCache := Some c;
     requests := requests st |}.

(** The cache entry of [st] is missing, or at least [TTL] old now. *)
Definition stale (st : state W) : Prop :=
  fredCache st = None
  \/ exists c, fredCache st = Some c /\ (TTL <= Date_now (world st) - ts c)%Z.

(** The series [fetchFredLatest] asks for, and the request it sends with the
    credential [key]. *)
Definition series (st : state W) : string :=
  env_or (FRED_SERIES_ID (env st)) "MORTGAGE30US".

Definition observations_request (st : state W) (key : string) : request :=
  GetObservations (series st) key "json" "desc" "14".

(** An observation that cannot be used: a missing entry, a missing or empty
    value, or the sentinel ["."]. *)
Definition unusable (o : js_value) : Prop :=
  truthy o = false \/ truthy (own_prop o "value") = false
  \/ own_prop o "value" = JStr ".".

(** Following the spec, not the code: [id] is the configured series
    identifier, the one of the environment when it is set and not empty, and
    the 30-year mortgage series otherwise. *)
Definition configured_series (e : process_env) (id : string) : Prop :=
  (FRED_SERIES_ID e = Some id /\ id <> "")
  \/ ((FRED_SERIES_ID e = None \/ FRED_SERIES_ID e = Some "")
      /\ id = "MORTGAGE30US").

(** Following the spec, not the code: the request for the most recent
    observations of the series [id], with its documented parameters. *)
Definition series_request (id key : string) : request :=
  GetObservations id key "json" "desc" "14".

(** Following the spec, not the code: there is no cache entry, or its age is
    at least one hour (3 600 000 ms). *)
Definition expired (st : state W) : Prop :=
  fredCache st = None
  \/ exists c, fredCache st = Some c
               /\ (3600000 <= Date_now (world st) - ts c)%Z.

(** [obs] starts with the unusable observations [skipped], and the first
    usable one, [o], has the text [digits] as its value: present, and not the
    sentinel. *)
Definition first_valid (obs skipped : list js_value) (o : js_value)
    (digits : string) : Prop :=
  (exists later, obs = (skipped ++ o :: later)%list)
  /\ Forall unusable skipped
  /\ own_prop o "value" = JStr digits
  /\ digits <> "" /\ digits <> ".".

(** The ways an upstream fetch fails, from state [st]: no credential, a
    rejected [fetch], a status that is not a success, a body that is not
    JSON, no observation list, no usable observation in it (an empty list
    included), and a first usable value that is not a finite number. *)
Inductive fetch_failure (st : state W) : Prop :=
| credential_absent :
    FRED_API_KEY (env st) = None \/ FRED_API_KEY (env st) = Some "" ->
    fetch_failure st
| fetch_rejected id key e w1 :
    configured_series (env st) id ->
    FRED_API_KEY (env st) = Some key -> key <> "" ->
    http (series_request id key) (world st) = (Rejected e, w1) ->
    fetch_failure st
| status_not_ok id key resp w1 :
    configured_series (env st) id ->
    FRED_API_KEY (env st) = Some key -> key <> "" ->
    http (series_request id key) (world st) = (Responded resp, w1) ->
    ok resp = false ->
    fetch_failure st
| body_not_json id key resp w1 e :
    configured_series (env st) id ->
    FRED_API_KEY (env st) = Some key -> key <> "" ->
    http (series_request id key) (world st) = (Responded resp, w1) ->
    ok resp = true -> json resp = Throw e ->
    fetch_failure st
| observations_absent id key resp w1 data :
    configured_series (env st) id ->
    FRED_API_KEY (env st) = Some key -> key <> "" ->
    http (series_request id key) (world st) = (Responded resp, w1) ->
    ok resp = true -> json resp = Return data ->
    is_array (own_prop data "observations") = false ->
    fetch_failure st
| observations_unusable id key resp w1 data obs :
    configured_series (env st) id ->
    FRED_API_KEY (env st) = Some key -> key <> "" ->
    http (series_request id key) (world st) = (Responded resp, w1) ->
    ok resp = true -> json resp = Return data ->
    own_prop data "observations" = JArr obs ->
    Forall unusable obs ->
    fetch_failure st
| value_not_finite id key resp w1 data obs skipped o digits :
    configured_series (env st) id ->
    FRED_API_KEY (env st) = Some key -> key <> "" ->
    http (series_request id key) (world st) = (Responded resp, w1) ->
    ok resp = true -> json resp = Return data ->
    own_prop data "observations" = JArr obs ->
    first_valid obs skipped o digits ->
    is_finite (parseFloat digits) = false ->
    fetch_failure st.

(** The parsed body is a subscription request with string fields: an [email]
    containing ['@'], and a non-empty [tag] and [name]. *)
Record subscription (parsed : js_value) (email tag name : string) : Prop := {
  has_email : own_prop parsed "email" = JStr email;
  has_tag : own_prop parsed "settlementId" = JStr tag;
  has_name : own_prop parsed "settlementName" = JStr name;
  email_has_at : String_includes email "@" = true;
  tag_not_empty : tag <> "";
  name_not_empty : name <> ""
}.

(** [deadline || null], from the parsed body. *)
Definition deadline_of (parsed : js_value) : js_value :=
  js_or (own_prop parsed "deadline") JNull.

(** [e.message || 'Failed to subscribe. Please try again.']. *)
Definition shown (e : js_error) : string :=
  if String.eqb (message e) "" then "Failed to subscribe. Please try again."
  else message e.

(** How [handleSubscribe] answers once [updateButtondownSubscriber] has
    run. *)
Definition update_reply (r : completion js_value * state W)
  : completion reply * state W :=
  match r with
  | (Return _, st) => (Return (plain 200 (SuccessJson updated_message)), st)
  | (Throw e, st) => (Return (plain 500 (ErrorJson (shown e))), st)
  end.

(** The create request sent with credential [key] at time [t]. *)
Definition create_request (key : string) (email tag name deadline : js_value)
    (t : Z) : request :=
  PostSubscriber key email [tag]
    (create_metadata name deadline (Date_toISOString t)).

(** The search request of the update path, for the encoded email
    [address]. *)
Definition search_request (key address : string) : request :=
  GetSubscribers key address.

(** The metadata the update path sends back: the subscriber's, with the
    settlement record stored under [settlement_<tag>]. *)
Definition updatedMeta (metadata : option (gmap string js_value))
    (tag : string) (record : js_value) : gmap string js_value :=
  <["settlement_" ++ tag := record]> (default ∅ metadata).

(** The patch request of the update path for subscriber [sub], at time [t]. *)
Definition patch_request (key : string) (sub : subscriber)
    (tag : string) (name deadline : js_value) (t : Z) : request :=
  PatchSubscriber key (sub_id sub) (updatedTags (sub_tags sub) (JStr tag))
    (updatedMeta (sub_metadata sub) tag
       (settlement_record name deadline (Date_toISOString t))).

End Notions.

(** ** Sample built-ins and upstreams

    Concrete instances of the two parameter classes, on which the functions
    above can be run. *)

(** A JSON text is written with the double-quote character [dq]. *)
Definition dq : string := String "034"%char "".

Definition quoted (s : string) : string := dq ++ s ++ dq.

Definition json_field (k v : string) : string := quoted k ++ ":" ++ quoted v.

(** The body the front end posts for the settlement [tag], and its parse. *)
Definition sample_text (email tag : string) : string :=
  "{" ++ json_field "email" email ++ "," ++ json_field "settlementId" tag
      ++ "," ++ json_field "settlementName" "Name" ++ "}".

Definition sample_body (email tag : string) : js_value :=
  JObj [("email", JStr email); ("settlementId", JStr tag);
        ("settlementName", JStr "Name")].

(** A body whose [email] is the number 5. *)
Definition numeric_text : string := "{" ++ quoted "email" ++ ":5}".

Definition numeric_body : js_value := JObj [("email", JNum 5)].

(** An email that starts with the lone surrogate U+D800.  Strings are kept
    as UTF-8 bytes, a lone surrogate as its three-byte generalised form (here
    0xED 0xA0 0x80); in a JSON text it is written with the escape [\ud800]. *)
Definition lone_surrogate_email : string :=
  String "237"%char (String "160"%char (String "128"%char "@x.com")).

Definition lone_surrogate_text : string := sample_text "\ud800@x.com" "tagA".

(** A stand-in for [JSON.parse] that knows the texts used below and rejects
    every other text. *)
Definition sample_JSON_parse (text : string) : completion js_value :=
  if String.eqb text "{}" then Return (JObj [])
  else if String.eqb text "null" then Return JNull
  else if String.eqb text (sample_text "user@x.com" "tagA")
  then Return (sample_body "user@x.com" "tagA")
  else if String.eqb text (sample_text "user@x.com" "tagB")
  then Return (sample_body "user@x.com" "tagB")
  else if String.eqb text (sample_text "user.x.com" "tagA")
  then Return (sample_body "user.x.com" "tagA")
  else if String.eqb text numeric_text then Return numeric_body
  else if String.eqb text lone_surrogate_text
  then Return (sample_body lone_surrogate_email "tagA")
  else Throw (Error "Unexpected token in JSON").

(** A stand-in for [JSON.stringify] on the values the file serialises into
    metadata: flat objects of strings and [null]s (no escaping). *)
Definition sample_JSON_stringify (v : js_value) : string :=
  match v with
  | JObj props =>
      "{" ++ String.concat ","
               (map (fun kv =>
                       quoted (fst kv) ++ ":" ++
                       match snd kv with
                       | JStr s => quoted s
                       | _ => "null"
                       end) props) ++ "}"
  | JStr s => quoted s
  | _ => "null"
  end.

Definition sample_parseFloat (s : string) : float :=
  if String.eqb s "6.61" then 6.61%float
  else if String.eqb s "7" then 7%float
  else nan.

(** [encodeURIComponent] on strings kept as UTF-8 bytes: the unreserved
    characters (letters, digits and [-_.!~*'()]) stay, every other byte
    becomes [%XX], and a lone surrogate (a byte 0xED followed by one from 0xA0
    on) is a [URIError]. *)
Definition unreserved (c : ascii) : bool :=
  let n := N_of_ascii c in
  ((48 <=? n) && (n <=? 57) || (65 <=? n) && (n <=? 90)
   || (97 <=? n) && (n <=? 122))%N
  || existsb (Ascii.eqb c) ["-"; "_"; "."; "!"; "~"; "*"; "'"; "("; ")"]%char.

Definition hex_digit (n : N) : ascii :=
  nth (N.to_nat n)
    ["0"; "1"; "2"; "3"; "4"; "5"; "6"; "7"; "8"; "9";
     "A"; "B"; "C"; "D"; "E"; "F"]%char "0"%char.

Definition percent (c : ascii) : string :=
  let n := N_of_ascii c in
  String "%"%char (String (hex_digit (n / 16)) (String (hex_digit (n mod 16)) "")).

Fixpoint escape (s : string) : string :=
  match s with
  | EmptyString => EmptyString
  | String c rest =>
      (if unreserved c then String c "" else percent c) ++ escape rest
  end.

Fixpoint has_lone_surrogate (s : string) : bool :=
  match s with
  | String a (String b _ as rest) =>
      ((N_of_ascii a =? 237) && (160 <=? N_of_ascii b))%N
      || has_lone_surrogate rest
  | _ => false
  end.

Definition sample_encodeURIComponent (s : string) : completion string :=
  if has_lone_surrogate s then Throw (Error "URI malformed")
  else Return (escape s).

(** The sample built-ins.  Number formatting and the timestamp format are
    constant stand-ins: no statement below depends on them. *)
#[local] Instance sample_builtins : Builtins := {|
  JSON_parse := sample_JSON_parse;
  JSON_stringify := sample_JSON_stringify;
  parseFloat := sample_parseFloat;
  Number_toString := fun _ => "NaN";
  Date_toISOString := fun _ => "2025-01-01T00:00:00.000Z";
  encodeURIComponent := sample_encodeURIComponent;
  TypeError_message := fun f =>
    match f with
    | ReadOfNullish => "Cannot destructure property of null"
    | NotAFunction => "email.includes is not a function"
    | NotPrimitive => "Cannot convert object to primitive value"
    end
|}.

(** *** A scripted upstream

    The world is a clock and a list of canned answers; each [fetch] consumes
    the next answer, and rejects when the script has run out or the answer is
    of the wrong kind for the request. *)
Inductive canned : Type :=
| Plain (answer : fetched js_value)
| Search (answer : fetched search_data).

Record script : Type := { script_clock : Z; pending : list canned }.

Definition script_http (r : request) (w : script)
  : fetched (json_of r) * script :=
  let w' := {| script_clock := script_clock w + 1; pending := tl (pending w) |} in
  (match r as r0 return fetched (json_of r0) with
   | GetSubscribers _ _ =>
       match pending w with
       | Search a :: _ => a
       | _ => Rejected (Error "fetch failed")
       end
   | _ =>
       match pending w with
       | Plain a :: _ => a
       | _ => Rejected (Error "fetch failed")
       end
   end, w').

#[local] Instance script_upstream : Upstream script := {|
  Date_now := script_clock;
  http := script_http
|}.

(** *** A mailing list

    The mailing-list service as section 6 of the spec describes it: a create
    adds a subscriber unless the email is taken, in which case it answers
    with an "already subscribed" failure; a search by email returns the
    matching subscribers (those whose email encodes to the query); a patch
    replaces the tags and metadata of the subscriber with the given id.  The
    id of a subscriber is its email. *)
Record mailing_list : Type := {
  list_clock : Z;
  subscribers : list subscriber
}.

Definition text_of (v : js_value) : string :=
  match v with
  | JStr s => s
  | _ => ""
  end.

Definition has_id (id : string) (s : subscriber) : bool := String.eqb (sub_id s) id.

Definition listed_as (query : string) (s : subscriber) : bool :=
  match sample_encodeURIComponent (sub_id s) with
  | Return q => String.eqb q query
  | Throw _ => false
  end.

Definition accepted : response js_value :=
  {| ok := true; text := Return "{}"; json := Return (JObj []) |}.

Definition refused (why : string) : response js_value :=
  {| ok := false; text := Return why; json := Throw (Error "Unexpected token in JSON") |}.

Definition patch_one (id : string) (tags : list js_value)
    (metadata : gmap string js_value) (s : subscriber) : subscriber :=
  if has_id id s
  then {| sub_id := id; sub_tags := Some tags; sub_metadata := Some metadata |}
  else s.

Definition mailing_list_http (r : request) (w : mailing_list)
  : fetched (json_of r) * mailing_list :=
  let later (l : list subscriber) :=
    {| list_clock := list_clock w + 1; subscribers := l |} in
  match r as r0 return fetched (json_of r0) * mailing_list with
  | GetObservations _ _ _ _ _ =>
      (Rejected (Error "fetch failed"), later (subscribers w))
  | PostSubscriber _ email tags metadata =>
      if existsb (has_id (text_of email)) (subscribers w)
      then (Responded (refused "That email address is already subscribed."),
            later (subscribers w))
      else (Responded accepted,
            later (subscribers w ++
                     [{| sub_id := text_of email; sub_tags := Some tags;
                         sub_metadata := Some metadata |}])%list)
  | GetSubscribers _ query =>
      (Responded {| ok := true; text := Return "";
                    json := Return {| results :=
                                        Some (filter (listed_as query) (subscribers w)) |} |},
       later (subscribers w))
  | PatchSubscriber _ id tags metadata =>
      if existsb (has_id id) (subscribers w)
      then (Responded accepted, later (map (patch_one id tags metadata) (subscribers w)))
      else (Responded (refused "Not found."), later (subscribers w))
  end.

#[local] Instance mailing_list_upstream : Upstream mailing_list := {|
  Date_now := list_clock;
  http := mailing_list_http
|}.

(** A process with both credentials set, an empty cache and no call made. *)
Definition boot {W : Type} (w : W) : state W :=
  {| world := w;
     env := {| FRED_API_KEY := Some "fred-key"; FRED_SERIES_ID := None;
               BUTTONDOWN_API_KEY := Some "bd-key" |};
     fredCache := None;
     requests := [] |}.

(** Runs one program after another, ignoring the first result. *)
Definition and_then {W A B} (m : M W A) (k : M W B) : M W B := bind m (fun _ => k).

(** *** Sample worlds *)

Definition observation (date value : string) : js_value :=
  JObj [("date", JStr date); ("value", JStr value)].

Definition observations_data (obs : list js_value) : js_value :=
  JObj [("observations", JArr obs)].

Definition observations_response (obs : list js_value) : response js_value :=
  {| ok := true; text := Return ""; json := Return (observations_data obs) |}.

(** The series API answers with a placeholder for the latest week and 6.61
    for the week before. *)
Definition two_weeks : list js_value :=
  [observation "2025-01-09" "."; observation "2025-01-02" "6.61"].

Definition fred_script : script :=
  {| script_clock := 1736000000000;
     pending := [Plain (Responded (observations_response two_weeks))] |}.

(** The series API answers with placeholders only. *)
Definition placeholders : list js_value :=
  [observation "2025-01-09" "."; observation "2025-01-02" "."].

Definition sentinel_script : script :=
  {| script_clock := 1736000000000;
     pending := [Plain (Responded (observations_response placeholders))] |}.

(** A process configured for another series, the 15-year one. *)
Definition tuned {W : Type} (w : W) : state W :=
  {| world := w;
     env := {| FRED_API_KEY := Some "fred-key";
               FRED_SERIES_ID := Some "MORTGAGE15US";
               BUTTONDOWN_API_KEY := Some "bd-key" |};
     fredCache := None;
     requests := [] |}.

(** A process whose cache was filled from [fred_script] at 1736000000000,
    [ms] milliseconds later. *)
Definition aged (ms : Z) : state script :=
  let st := snd (handleRate "GET" (boot fred_script)) in
  {| world := {| script_clock := 1736000000000 + ms;
                 pending := pending (world st) |};
     env := env st; fredCache := fredCache st; requests := requests st |}.

(** A mailing list with no subscriber, and the states after the front end
    has posted settlement [tagA] and then settlement [tagB] for the same
    email. *)
Definition empty_list : mailing_list :=
  {| list_clock := 1736000000000; subscribers := [] |}.

Definition after_first : state mailing_list :=
  snd (handleSubscribe "POST" [sample_text "user@x.com" "tagA"] (boot empty_list)).

Definition after_second : state mailing_list :=
  snd (handleSubscribe "POST" [sample_text "user@x.com" "tagB"] after_first).

(** An upstream that refuses the create as a duplicate and then finds no
    subscriber. *)
Definition found (subs : list subscriber) : response search_data :=
  {| ok := true; text := Return ""; json := Return {| results := Some subs |} |}.

Definition lost_script : script :=
  {| script_clock := 1736000000000;
     pending := [Plain (Responded (refused "That email address is already subscribed."));
                 Search (Responded (found []))] |}.

(** An upstream whose search finds a subscriber tagged [tagA] with one
    metadata entry. *)
Definition known_subscriber : subscriber :=
  {| sub_id := "sub-1"; sub_tags := Some [JStr "tagA"];
     sub_metadata := Some {["plan" := JStr "free"]} |}.

Definition found_script : script :=
  {| script_clock := 1736000000000;
     pending := [Search (Responded (found [known_subscriber]));
                 Plain (Responded accepted)] |}.

(** ** Static files and the dispatcher *)

(** What the dispatcher and [serveStatic] use of Node besides the built-ins
    above: the directory of the script, the [path] functions, the two [fs]
    queries (answered by the world), lowercasing, and the URL parser, which
    throws on a URL it cannot parse. *)
Class Platform (W : Type) : Type := {
  (** [__dirname]. *)
  script_dirname : string;
  path_join : string -> string -> string;
  path_resolve : string -> string -> string;
  path_extname : string -> string;
  String_toLowerCase : string -> string;
  (** [fs.existsSync(p)]. *)
  fs_existsSync : W -> string -> bool;
  (** [fs.statSync(p).isFile()], asked only of a path that exists. *)
  fs_isFile : W -> string -> bool;
  (** [new URL(url, base).pathname]. *)
  URL_pathname : string -> string -> completion string
}.

(** What the server writes for one request: the JSON reply of one of the two
    handlers, a plain text with a status, or a file piped with status 200, its
    content type and, for assets, the CORS header. *)
Inductive served : Type :=
| Json (r : reply)
| Text (code : Z) (content : string)
| FileStream (content_type : string) (allow_origin : bool) (path : string).

(** An incoming request, as far as the server reads it: [req.url],
    [req.headers.host], [req.method] and the chunks of the body. *)
Record incoming : Type := {
  req_url : option string;
  req_host : option string;
  req_method : string;
  req_chunks : list string
}.

Section Dispatch.
Context {W : Type} `{Builtins} `{Upstream W} `{Platform W}.
#[local] Open Scope js_scope.

(** [path.resolve(__dirname, 'assets')]. *)
Definition ASSETS_DIR : string := path_resolve script_dirname "assets".

(** [s.slice(1)]: [s] without its first character. *)
Definition slice1 (s : string) : string :=
  match s with
  | EmptyString => EmptyString
  | String _ rest => rest
  end.

(** The content type chosen from the lowercased extension. *)
Definition content_type_of (ext : string) : string :=
  if String.eqb ext ".js" then "application/javascript"
  else if String.eqb ext ".css" then "text/css"
  else if String.eqb ext ".html" then "text/html"
  else "application/octet-stream".

(** [serveStatic(req, res, url)], by [req.method] and [url.pathname]: [None]
    is [false] (nothing written), [Some f] is [true] after writing [f]. *)
Definition serveStatic (method pathname : string) : M W (option served) :=
  fun st =>
    if negb (String.eqb method "GET") then (Return None, st)
    else
      let index :=
        if String.eqb pathname "/" || String.eqb pathname "/index.html" then
          let p := path_join ASSETS_DIR "mortgage-calculator.html" in
          if fs_existsSync (world st) p
          then Some (FileStream "text/html" false p)
          else None
        else None in
      match index with
      | Some f => (Return (Some f), st)
      | None =>
          if starts_with "/assets/" pathname then
            let assetPath := path_join script_dirname (slice1 pathname) in
            if fs_existsSync (world st) assetPath && fs_isFile (world st) assetPath
            then
              let ext := String_toLowerCase (path_extname assetPath) in
              (Return (Some (FileStream (content_type_of ext) true assetPath)), st)
            else (Return None, st)
          else (Return None, st)
      end.

(** The base of the URL parse: [`http://${req.headers.host || 'localhost'}`]. *)
Definition url_base (req : incoming) : string :=
  "http://" ++ env_or (req_host req) "localhost".

(** The request listener given to [createServer].  A [Throw] is the rejected
    promise of the listener: nothing is written to [res]. *)
Definition server (req : incoming) : M W served :=
  match req_url req with
  | None => ret (Text 400 "Missing URL")
  | Some url =>
      if String.eqb url "" then ret (Text 400 "Missing URL")
      else
        pathname <- lift (URL_pathname url (url_base req)) ;;
        if String.eqb pathname "/api/rate" then
          r <- handleRate (req_method req) ;; ret (Json r)
        else if String.eqb pathname "/api/subscribe" then
          r <- handleSubscribe (req_method req) (req_chunks req) ;; ret (Json r)
        else
          written <- serveStatic (req_method req) pathname ;;
          match written with
          | Some f => ret f
          | None => ret (Text 404 "Not Found")
          end
  end.

End Dispatch.

(** ** More notions used in the statements *)

(** A program that leaves the state as it found it, whatever it returns or
    throws. *)
Definition keeps_state {W A : Type} (m : M W A) : Prop :=
  forall st, snd (m st) = st.

(** A value that is neither an array nor an object. *)
Definition primitive (v : js_value) : bool :=
  match v with
  | JArr _ | JObj _ => false
  | _ => true
  end.

(** The requests one subscribe call can add with the credential [key]:
    nothing, the create, the create and the search, or all three. *)
Inductive subscribe_trace (key : string) : list request -> Prop :=
| trace_none : subscribe_trace key []
| trace_create e t m :
    subscribe_trace key [PostSubscriber key e t m]
| trace_search e t m a :
    subscribe_trace key [PostSubscriber key e t m; GetSubscribers key a]
| trace_patch e t m a i t' m' :
    subscribe_trace key [PostSubscriber key e t m; GetSubscribers key a;
                         PatchSubscriber key i t' m'].

(** *** More sample worlds *)

(** A process with no credential at all. *)
Definition unconfigured {W : Type} (w : W) : state W :=
  {| world := w;
     env := {| FRED_API_KEY := None; FRED_SERIES_ID := None;
               BUTTONDOWN_API_KEY := None |};
     fredCache := None;
     requests := [] |}.

(** An upstream that refuses the create as a duplicate and then refuses the
    search. *)
Definition closed_script : script :=
  {| script_clock := 1736000000000;
     pending := [Plain (Responded (refused "That email address is already subscribed."));
                 Search (Responded {| ok := false; text := Return "Forbidden";
                                      json := Return {| results := None |} |})] |}.

(** An upstream that refuses the create as a duplicate, finds the subscriber
    and refuses the patch with an empty body. *)
Definition frozen_script : script :=
  {| script_clock := 1736000000000;
     pending := [Plain (Responded (refused "That email address is already subscribed."));
                 Search (Responded (found [known_subscriber]));
                 Plain (Responded (refused ""))] |}.

(** An upstream that accepts the create. *)
Definition open_script : script :=
  {| script_clock := 1736000000000; pending := [Plain (Responded accepted)] |}.

(** A body whose [email] is the array [["@"]], and built-ins that parse it. *)
Definition array_text : string :=
  "{" ++ quoted "email" ++ ":[" ++ quoted "@" ++ "]," ++ json_field "settlementId" "tagA"
      ++ "," ++ json_field "settlementName" "Name" ++ "}".

Definition array_body : js_value :=
  JObj [("email", JArr [JStr "@"]); ("settlementId", JStr "tagA");
        ("settlementName", JStr "Name")].

Definition array_builtins : Builtins := {|
  JSON_parse := fun text =>
    if String.eqb text array_text then Return array_body
    else sample_JSON_parse text;
  JSON_stringify := sample_JSON_stringify;
  parseFloat := sample_parseFloat;
  Number_toString := fun _ => "NaN";
  Date_toISOString := fun _ => "2025-01-01T00:00:00.000Z";
  encodeURIComponent := sample_encodeURIComponent;
  TypeError_message := fun _ => "TypeError"
|}.

(** A stand-in platform for the scripted world: the script lives in [/srv],
    two files exist, paths are joined with a slash, the extension is looked
    up in a table, and a URL is its own pathname when it starts with one
    slash. *)
Definition sample_files : list string :=
  ["/srv/assets/mortgage-calculator.html"; "/srv/assets/app.js"].

#[local] Instance script_platform : Platform script := {|
  script_dirname := "/srv";
  path_join := fun a b => a ++ "/" ++ b;
  path_resolve := fun a b => a ++ "/" ++ b;
  path_extname := fun p =>
    if String.eqb p "/srv/assets/app.js" then ".js"
    else if String.eqb p "/srv/assets/mortgage-calculator.html" then ".html"
    else "";
  String_toLowerCase := fun s => s;
  fs_existsSync := fun _ p => existsb (String.eqb p) sample_files;
  fs_isFile := fun _ p => existsb (String.eqb p) sample_files;
  URL_pathname := fun url _ =>
    if starts_with "//" url then Throw (Error "Invalid URL")
    else if starts_with "/" url then Return url
    else Throw (Error "Invalid URL")
|}.

(** * Properties *)

(** ** Helper lemmas *)

Section Basics.
Context {W : Type} `{Builtins} `{Upstream W}.

Lemma string_eqb_false (a b : string) : a <> b -> String.eqb a b = false.
Proof. intros Hne. apply String.eqb_neq. exact Hne. Qed.

Lemma env_set_some (v : option string) :
  env_set v = true -> exists key, v = Some key /\ key <> "".
Proof.
  destruct v as [key|]; [|discriminate]. cbn. intros Hne.
  exists key. split; [reflexivity|]. intros ->. discriminate.
Qed.

Lemma own_prop_array_truthy (data : js_value) (name : string) (items : list js_value) :
  own_prop data name = JArr items -> truthy data = true.
Proof. destruct data; cbn; try discriminate. reflexivity. Qed.

Lemma own_prop_get (v : js_value) (name : string) :
  truthy v = true -> get_prop v name = Return (own_prop v name).
Proof. destruct v; cbn; try discriminate; reflexivity. Qed.

Lemma try_catch_returns {A} (m : M W A) (a : A) (st : state W) :
  exists r st', try_catch m (fun _ => ret a) st = (Return r, st').
Proof.
  unfold try_catch, ret. destruct (m st) as [[v|e] st']; eauto.
Qed.

Lemma fetch_responded (st : state W) (r : request) resp w1 :
  http r (world st) = (Responded resp, w1) ->
  fetch r st = (Return resp, fetched_state st r w1).
Proof. intros Hr. unfold fetch. rewrite Hr. reflexivity. Qed.

Lemma fetch_rejected_throws (st : state W) (r : request) e w1 :
  http r (world st) = (Rejected e, w1) ->
  fetch r st = (Throw e, fetched_state st r w1).
Proof. intros Hr. unfold fetch. rewrite Hr. reflexivity. Qed.

End Basics.

(** ** The rate quote *)

(** [Math.round] on halves, on negative numbers and at the edges. *)
Example Math_round_samples :
  Math_round 2.5 = 3%float
  /\ Math_round (-2.5) = (-2)%float
  /\ Math_round 71.1 = 71%float
  /\ Math_round 71.5 = 72%float
  /\ Math_round (-0.2) = (-0)%float
  /\ Math_round 0.49999999999999994 = 0%float
  /\ Math_round 4503599627370497 = 4503599627370497%float
  /\ Math_round infinity = infinity
  /\ Math_round nan = nan.
Proof. vm_compute. repeat split; reflexivity. Qed.

Section RateQuote.
Context {W : Type} `{Builtins} `{Upstream W}.

Lemma unusable_invalid (o : js_value) : unusable o -> valid_observation o = false.
Proof.
  unfold unusable, valid_observation.
  intros [Ho | [Hv | Hdot]].
  - rewrite Ho. reflexivity.
  - rewrite Hv. apply andb_false_iff. left. apply andb_false_r.
  - rewrite Hdot. cbn. apply andb_false_r.
Qed.

Lemma find_unusable (obs : list js_value) :
  Forall unusable obs -> find valid_observation obs = None.
Proof.
  induction 1 as [|o obs Ho _ IH]; [reflexivity|].
  cbn. rewrite (unusable_invalid o Ho). exact IH.
Qed.

Lemma valid_observation_truthy (o : js_value) :
  valid_observation o = true -> truthy o = true.
Proof.
  unfold valid_observation. intros Hv.
  apply andb_true_iff in Hv as [Hv _]. apply andb_true_iff in Hv as [Hv _].
  exact Hv.
Qed.

Lemma fetchFredLatest_returns (st : state W) :
  exists data st', fetchFredLatest st = (Return data, st').
Proof.
  unfold fetchFredLatest. unfold bind at 1. unfold get_env.
  destruct (FRED_API_KEY (env st)) as [key|]; [|unfold ret; eauto].
  destruct (String.eqb key ""); [unfold ret; eauto|].
  apply try_catch_returns.
Qed.

(** With a credential, [fetchFredLatest] is its [try] block. *)
Lemma fetchFredLatest_keyed (st : state W) key :
  FRED_API_KEY (env st) = Some key -> key <> "" ->
  fetchFredLatest st
  = try_catch
      (bind (fetch (observations_request st key)) (fun resp =>
         if negb (ok resp) then ret None
         else
           bind (lift (json resp)) (fun data =>
           bind (lift (if truthy data then get_prop data "observations"
                       else Return data)) (fun listed =>
           bind (if is_array listed
                 then bind (lift (get_prop data "observations"))
                        (fun o => ret (array_items o))
                 else ret []) (fun obs =>
           match find valid_observation obs with
           | None => ret None
           | Some firstValid =>
               bind (lift (get_prop firstValid "value")) (fun value =>
               bind (lift (ToString value)) (fun digits =>
               let raw := parseFloat digits in
               if negb (is_finite raw) then ret None
               else
                 bind (lift (get_prop firstValid "date")) (fun date =>
                 ret (Some {| ratePercent := (Math_round ((raw + 0.5) * 10) / 10)%float;
                              rawPercent := Some raw;
                              adjustedAdded := 0.5%float;
                              observationDate := date;
                              source := series st |}))))
           end)))))
      (fun _ => ret None) st.
Proof.
  intros Hkey Hne. unfold fetchFredLatest. unfold bind at 1. unfold get_env.
  rewrite Hkey. rewrite (string_eqb_false _ _ Hne). reflexivity.
Qed.

(** Proof steps that follow [fetchFredLatest] through its [try] block: into
    the block, past a response with a JSON body, past the observation list,
    and to the digits of the first usable value. *)
Ltac enter_try Hkey Hne :=
  rewrite (fetchFredLatest_keyed _ _ Hkey Hne);
  unfold try_catch; unfold bind at 1.

Ltac read_body Hhttp Hok Hjson :=
  rewrite (fetch_responded _ _ _ _ Hhttp); rewrite Hok; cbn [negb];
  unfold bind at 1, lift at 1; rewrite Hjson.

Ltac read_list Hobs :=
  let Htruthy := fresh "Htruthy" in
  pose proof (own_prop_array_truthy _ _ _ Hobs) as Htruthy;
  rewrite Htruthy; rewrite (own_prop_get _ "observations" Htruthy); rewrite Hobs;
  unfold bind at 1, lift at 1; cbn [is_array];
  unfold bind at 1; unfold bind at 1, lift at 1; unfold ret at 1;
  cbn [array_items].

Ltac read_value Hfind Hdigits :=
  let Hvalid := fresh "Hvalid" in
  let Ho := fresh "Ho" in
  rewrite Hfind;
  pose proof (find_some _ _ Hfind) as [_ Hvalid];
  pose proof (valid_observation_truthy _ Hvalid) as Ho;
  rewrite !(own_prop_get _ _ Ho);
  unfold bind at 1, lift at 1; unfold bind at 1, lift at 1; rewrite Hdigits.

Lemma fetchFredLatest_success (st : state W) key resp w1 data obs o digits :
  FRED_API_KEY (env st) = Some key -> key <> "" ->
  http (observations_request st key) (world st) = (Responded resp, w1) ->
  ok resp = true -> json resp = Return data ->
  own_prop data "observations" = JArr obs ->
  find valid_observation obs = Some o ->
  ToString (own_prop o "value") = Return digits ->
  is_finite (parseFloat digits) = true ->
  fetchFredLatest st
  = (Return (Some {| ratePercent :=
                       (Math_round ((parseFloat digits + 0.5) * 10) / 10)%float;
                     rawPercent := Some (parseFloat digits);
                     adjustedAdded := 0.5%float;
                     observationDate := own_prop o "date";
                     source := series st |}),
     fetched_state st (observations_request st key) w1).
Proof.
  intros Hkey Hne Hhttp Hok Hjson Hobs Hfind Hdigits Hfinite.
  enter_try Hkey Hne. read_body Hhttp Hok Hjson. read_list Hobs.
  read_value Hfind Hdigits. rewrite Hfinite. cbn [negb].
  unfold bind at 1, lift at 1. reflexivity.
Qed.

Lemma configured_series_eq (st : state W) (id : string) :
  configured_series (env st) id -> series st = id.
Proof.
  unfold configured_series, series, env_or.
  intros [[-> Hne] | [[-> | ->] ->]]; try reflexivity.
  rewrite (string_eqb_false _ _ Hne). reflexivity.
Qed.

(** The first usable observation of the spec is the one the code finds. *)
Lemma first_valid_found (obs skipped : list js_value) (o : js_value)
    (digits : string) :
  first_valid obs skipped o digits ->
  find valid_observation obs = Some o
  /\ ToString (own_prop o "value") = Return digits.
Proof.
  intros [[later ->] [Hskipped [Hvalue [Hpresent Hsentinel]]]].
  split; [|rewrite Hvalue; reflexivity].
  induction Hskipped as [|u skipped Hu _ IH].
  - cbn [app find]. unfold valid_observation. rewrite Hvalue.
    assert (Ho : truthy o = true).
    { destruct o; cbn in Hvalue; try discriminate Hvalue; reflexivity. }
    rewrite Ho. cbn [truthy strict_neq_str andb].
    rewrite (string_eqb_false _ _ Hpresent), (string_eqb_false _ _ Hsentinel).
    reflexivity.
  - cbn [app find]. rewrite (unusable_invalid u Hu). exact IH.
Qed.

Lemma fetchFredLatest_failure (st : state W) :
  fetch_failure st -> fst (fetchFredLatest st) = Return None.
Proof.
  intros Hfail.
  destruct Hfail as
    [ [Hkey|Hkey]
    | id key e w1 Hid Hkey Hne Hhttp
    | id key resp w1 Hid Hkey Hne Hhttp Hok
    | id key resp w1 e Hid Hkey Hne Hhttp Hok Hjson
    | id key resp w1 data Hid Hkey Hne Hhttp Hok Hjson Hlist
    | id key resp w1 data obs Hid Hkey Hne Hhttp Hok Hjson Hobs Hall
    | id key resp w1 data obs skipped o digits
        Hid Hkey Hne Hhttp Hok Hjson Hobs Hfirst Hfinite ];
    try (apply configured_series_eq in Hid; subst id;
         change (series_request (series st) key)
           with (observations_request st key) in *).
  - unfold fetchFredLatest. unfold bind at 1. unfold get_env. rewrite Hkey. reflexivity.
  - unfold fetchFredLatest. unfold bind at 1. unfold get_env. rewrite Hkey. reflexivity.
  - enter_try Hkey Hne. rewrite (fetch_rejected_throws st _ e w1 Hhttp). reflexivity.
  - enter_try Hkey Hne. rewrite (fetch_responded st _ resp w1 Hhttp).
    rewrite Hok. reflexivity.
  - enter_try Hkey Hne. read_body Hhttp Hok Hjson. reflexivity.
  - enter_try Hkey Hne. read_body Hhttp Hok Hjson.
    unfold bind at 1, lift at 1.
    destruct (truthy data) eqn:Htruthy.
    + rewrite (own_prop_get _ "observations" Htruthy). rewrite Hlist.
      unfold bind at 1. unfold ret at 1. reflexivity.
    + assert (Hnot : is_array data = false) by (destruct data; cbn in *; congruence).
      rewrite Hnot. unfold bind at 1. unfold ret at 1. reflexivity.
  - enter_try Hkey Hne. read_body Hhttp Hok Hjson. read_list Hobs.
    rewrite (find_unusable obs Hall). reflexivity.
  - destruct (first_valid_found obs skipped o digits Hfirst) as [Hfind Hdigits].
    enter_try Hkey Hne. read_body Hhttp Hok Hjson. read_list Hobs.
    read_value Hfind Hdigits. rewrite Hfinite. reflexivity.
Qed.

Lemma stale_not_fresh (st : state W) :
  stale st <-> fresh_entry (Date_now (world st)) (fredCache st) = None.
Proof.
  unfold stale, fresh_entry. split.
  - intros [Hnone | [c [Hc Hold]]]; rewrite ?Hnone, ?Hc; [reflexivity|].
    destruct (Z.ltb_spec (Date_now (world st) - ts c) TTL); [lia | reflexivity].
  - destruct (fredCache st) as [c|]; [|now left].
    destruct (Z.ltb_spec (Date_now (world st) - ts c) TTL); [discriminate|].
    intros _. right. exists c. split; [reflexivity | assumption].
Qed.

Lemma expired_stale (st : state W) : expired st <-> stale st.
Proof. unfold expired, stale. change TTL with 3600000%Z. reflexivity. Qed.

Lemma fresh_entry_young (t : Z) (c : cache_entry) :
  (t - ts c < TTL)%Z -> fresh_entry t (Some c) = Some c.
Proof.
  intros Hyoung. unfold fresh_entry.
  destruct (Z.ltb_spec (t - ts c) TTL); [reflexivity | lia].
Qed.

Lemma handleRate_miss (st : state W) data st1 :
  fresh_entry (Date_now (world st)) (fredCache st) = None ->
  fetchFredLatest st = (Return data, st1) ->
  let q := match data with Some q => q | None => fallback_quote end in
  handleRate "GET" st
  = (Return (quote_reply q),
     with_cache st1 {| ts := Date_now (world st); payload := q |}).
Proof.
  intros Hmiss Hfetch q. unfold handleRate. cbn [String.eqb Ascii.eqb Bool.eqb negb].
  unfold bind at 1. unfold now at 1. unfold bind at 1. unfold get_fredCache at 1.
  rewrite Hmiss. unfold bind at 1. rewrite Hfetch. reflexivity.
Qed.

Lemma handleRate_hit (st : state W) c :
  fresh_entry (Date_now (world st)) (fredCache st) = Some c ->
  handleRate "GET" st = (Return (quote_reply (payload c)), st).
Proof.
  intros Hhit. unfold handleRate. cbn [String.eqb Ascii.eqb Bool.eqb negb].
  unfold bind at 1. unfold now at 1. unfold bind at 1. unfold get_fredCache at 1.
  rewrite Hhit. reflexivity.
Qed.

(** C3: when the cache entry is missing or at least one hour old and the
    series API, asked for the configured series [id], answers with a list
    whose first usable observation [o] (the ones before it are unusable; its
    value is a text, not empty and not the sentinel ["."]) has a value that
    parses to a finite number [r], [GET /api/rate] answers 200 with the quote
    [ratePercent = Math.round((r + 0.5) * 10) / 10], [rawPercent = r],
    [adjustedAdded = 0.5], the date of [o], and [id] as its source. *)
Theorem getQuote_transforms_first_valid (st : state W) (id key : string)
    (resp : response js_value) (w1 : W) (data : js_value)
    (obs skipped : list js_value) (o : js_value) (digits : string) :
  expired st ->
  configured_series (env st) id ->
  FRED_API_KEY (env st) = Some key -> key <> "" ->
  http (series_request id key) (world st) = (Responded resp, w1) ->
  ok resp = true ->
  json resp = Return data ->
  own_prop data "observations" = JArr obs ->
  first_valid obs skipped o digits ->
  is_finite (parseFloat digits) = true ->
  let r := parseFloat digits in
  fst (handleRate "GET" st)
  = Return {| status := 200;
              cache_control := Some "public, max-age=3600";
              body := QuoteJson
                        {| ratePercent := (Math_round ((r + 0.5) * 10) / 10)%float;
                           rawPercent := Some r;
                           adjustedAdded := 0.5%float;
                           observationDate := own_prop o "date";
                           source := id |} |}.
Proof.
  intros Hexpired Hid Hkey Hne Hhttp Hok Hjson Hobs Hfirst Hfinite r.
  apply expired_stale, stale_not_fresh in Hexpired.
  destruct (first_valid_found obs skipped o digits Hfirst) as [Hfind Hdigits].
  apply configured_series_eq in Hid. subst id.
  rewrite (handleRate_miss st _ _ Hexpired
             (fetchFredLatest_success st key resp w1 data obs o digits
                Hkey Hne Hhttp Hok Hjson Hobs Hfind Hdigits Hfinite)).
  reflexivity.
Qed.

(** C4: [GET /api/rate] never throws: from every state, whatever the
    upstream does, it answers 200 with a quote.  When the cache entry is
    missing or at least one hour old and the fetch fails in any of the ways
    of [fetch_failure] (credential absent, rejected fetch, status not ok,
    body not JSON, observation list absent, empty or holding only unusable
    values, value not finite), the quote is exactly the fallback quote
    [{ratePercent: 5.5, rawPercent: null, adjustedAdded: 0.5,
    observationDate: null, source: "fallback"}], and it is what the cache
    then holds. *)
Theorem getQuote_never_fails (st : state W) :
  (exists q st',
     handleRate "GET" st
     = (Return {| status := 200;
                  cache_control := Some "public, max-age=3600";
                  body := QuoteJson q |}, st'))
  /\ (expired st -> fetch_failure st ->
      exists st',
        handleRate "GET" st
        = (Return {| status := 200;
                     cache_control := Some "public, max-age=3600";
                     body := QuoteJson {| ratePercent := 5.5%float;
                                          rawPercent := None;
                                          adjustedAdded := 0.5%float;
                                          observationDate := JNull;
                                          source := "fallback" |} |}, st')
        /\ fredCache st'
           = Some {| ts := Date_now (world st);
                     payload := {| ratePercent := 5.5%float;
                                   rawPercent := None;
                                   adjustedAdded := 0.5%float;
                                   observationDate := JNull;
                                   source := "fallback" |} |}).
Proof.
  split.
  - destruct (fresh_entry (Date_now (world st)) (fredCache st)) as [c|] eqn:Hfresh.
    + rewrite (handleRate_hit st c Hfresh). eexists _, _. reflexivity.
    + destruct (fetchFredLatest_returns st) as [data [st1 Hfetch]].
      rewrite (handleRate_miss st data st1 Hfresh Hfetch). eexists _, _. reflexivity.
  - intros Hexpired Hfail. apply expired_stale, stale_not_fresh in Hexpired.
    destruct (fetchFredLatest_returns st) as [data [st1 Hfetch]].
    pose proof (fetchFredLatest_failure st Hfail) as Hnone.
    rewrite Hfetch in Hnone. cbn [fst] in Hnone. injection Hnone as ->.
    rewrite (handleRate_miss st None st1 Hexpired Hfetch).
    eexists. split; reflexivity.
Qed.

(** C5: while the cache entry is younger than one hour (3 600 000 ms),
    [GET /api/rate] answers 200 with its payload and leaves the whole state
    as it is (no fetch, no write to the cache).  When the entry is absent or
    at least one hour old, [fetchFredLatest] runs and the cache is replaced
    by a new entry holding the quote returned (the fetched one, or the
    fallback quote), stamped with the current time.  A fetch is made only in
    that second case. *)
Theorem cache_entry_lifetime (st : state W) :
  (forall c, fredCache st = Some c ->
             (Date_now (world st) - ts c < 3600000)%Z ->
             handleRate "GET" st
             = (Return {| status := 200;
                          cache_control := Some "public, max-age=3600";
                          body := QuoteJson (payload c) |}, st))
  /\ (expired st ->
      exists data st1 q,
        fetchFredLatest st = (Return data, st1)
        /\ (data = Some q
            \/ data = None
               /\ q = {| ratePercent := 5.5%float;
                         rawPercent := None;
                         adjustedAdded := 0.5%float;
                         observationDate := JNull;
                         source := "fallback" |})
        /\ handleRate "GET" st
           = (Return {| status := 200;
                        cache_control := Some "public, max-age=3600";
                        body := QuoteJson q |},
              {| world := world st1; env := env st1;
                 fredCache := Some {| ts := Date_now (world st); payload := q |};
                 requests := requests st1 |}))
  /\ (requests (snd (handleRate "GET" st)) <> requests st -> expired st).
Proof.
  split; [|split].
  - intros c Hc Hyoung.
    rewrite (handleRate_hit st c); [reflexivity|].
    rewrite Hc. apply fresh_entry_young. exact Hyoung.
  - intros Hexpired. apply expired_stale, stale_not_fresh in Hexpired.
    destruct (fetchFredLatest_returns st) as [data [st1 Hfetch]].
    rewrite (handleRate_miss st data st1 Hexpired Hfetch).
    destruct data as [q|].
    + exists (Some q), st1, q. split; [exact Hfetch|]. split; [left|]; reflexivity.
    + exists None, st1, fallback_quote. split; [exact Hfetch|].
      split; [right; split|]; reflexivity.
  - intros Hcalled. apply expired_stale, stale_not_fresh.
    destruct (fresh_entry (Date_now (world st)) (fredCache st)) as [c|] eqn:Hfresh;
      [|reflexivity].
    rewrite (handleRate_hit st c Hfresh) in Hcalled. contradiction Hcalled. reflexivity.
Qed.

End RateQuote.

(** ** The subscription *)

Section Subscription.
Context {W : Type} `{Builtins} `{Upstream W}.

Lemma parseJsonBody_returns (chunks : list string) (st : state W) :
  exists v, parseJsonBody chunks st = (Return v, st).
Proof.
  unfold parseJsonBody, try_catch, lift, ret.
  destruct (JSON_parse _) as [v|e]; eexists; reflexivity.
Qed.

Lemma validation_of_empty_object (chunks : list string) (st : state W) :
  parseJsonBody chunks st = (Return (JObj []), st) ->
  handleSubscribe "POST" chunks st
  = (Return (plain 400 (ErrorJson "Invalid email address")), st).
Proof.
  intros Hparse. unfold handleSubscribe. cbn [String.eqb Ascii.eqb Bool.eqb negb].
  unfold try_catch at 1. unfold bind at 1. rewrite Hparse. reflexivity.
Qed.

(** C10: [parseJsonBody] never throws, whatever the chunks of the body.  For
    an empty body and for a body that [JSON.parse] rejects it returns the
    empty object, and [handleSubscribe] then answers 400 from its validation,
    leaving the state as it was. *)
Theorem parseJsonBody_never_raises (chunks : list string) (st : state W) :
  JSON_parse "{}" = Return (JObj []) ->
  (exists v, parseJsonBody chunks st = (Return v, st)) /\
  (body_text chunks = "" \/ (exists e, JSON_parse (body_text chunks) = Throw e) ->
   parseJsonBody chunks st = (Return (JObj []), st) /\
   handleSubscribe "POST" chunks st
   = (Return (plain 400 (ErrorJson "Invalid email address")), st)).
Proof.
  intros Hempty. split.
  - apply parseJsonBody_returns.
  - intros Hbad.
    assert (Hparse : parseJsonBody chunks st = (Return (JObj []), st)).
    { unfold parseJsonBody, try_catch, lift, ret.
      destruct Hbad as [Hnil | [e He]].
      + rewrite Hnil. cbn. rewrite Hempty. reflexivity.
      + destruct (String.eqb (body_text chunks) "") eqn:Hb.
        * rewrite Hempty. reflexivity.
        * rewrite He. reflexivity. }
    split; [exact Hparse | apply validation_of_empty_object, Hparse].
Qed.

Lemma handleSubscribe_validated (chunks : list string) (st : state W)
    (parsed email : js_value) :
  parseJsonBody chunks st = (Return parsed, st) ->
  get_prop parsed "email" = Return email ->
  truthy email = true ->
  js_includes email (JStr "@") = Return true ->
  truthy (own_prop parsed "settlementId") = true ->
  truthy (own_prop parsed "settlementName") = true ->
  handleSubscribe "POST" chunks st
  = match subscribeToButtondown email (own_prop parsed "settlementId")
            (own_prop parsed "settlementName") (deadline_of parsed) st with
    | (Return _, st1) => (Return (plain 200 (SuccessJson created_message)), st1)
    | (Throw e, st1) =>
        if String_includes (message e) "already subscribed"
        then update_reply
               (updateButtondownSubscriber email (own_prop parsed "settlementId")
                  (own_prop parsed "settlementName") (deadline_of parsed) st1)
        else (Return (plain 500 (ErrorJson (shown e))), st1)
    end.
Proof.
  intros Hparse Hemail Htruthy Hat Htag Hname.
  unfold handleSubscribe. cbn [String.eqb Ascii.eqb Bool.eqb negb].
  unfold try_catch at 1. unfold bind at 1. rewrite Hparse.
  unfold bind at 1, lift at 1. rewrite Hemail.
  unfold bind at 1. rewrite Htruthy. cbn [negb].
  unfold bind at 1, lift at 1. rewrite Hat. unfold ret at 1. cbn [negb].
  rewrite Htag, Hname. cbn [negb orb].
  unfold try_catch at 1, bind at 1. fold (deadline_of parsed).
  destruct (subscribeToButtondown _ _ _ _ st) as [[v|e] st1]; [reflexivity|].
  destruct (String_includes (message e) "already subscribed"); [|reflexivity].
  unfold bind at 1, update_reply.
  destruct (updateButtondownSubscriber _ _ _ _ st1) as [[v|e2] st2]; reflexivity.
Qed.

Lemma subscription_validated (chunks : list string) (st : state W)
    (parsed : js_value) (email tag name : string) :
  parseJsonBody chunks st = (Return parsed, st) ->
  subscription parsed email tag name ->
  handleSubscribe "POST" chunks st
  = match subscribeToButtondown (JStr email) (JStr tag) (JStr name)
            (deadline_of parsed) st with
    | (Return _, st1) => (Return (plain 200 (SuccessJson created_message)), st1)
    | (Throw e, st1) =>
        if String_includes (message e) "already subscribed"
        then update_reply
               (updateButtondownSubscriber (JStr email) (JStr tag) (JStr name)
                  (deadline_of parsed) st1)
        else (Return (plain 500 (ErrorJson (shown e))), st1)
    end.
Proof.
  intros Hparse [Hemail Htag Hname Hat Ht Hn].
  assert (Hobj : truthy parsed = true).
  { destruct parsed; cbn in Hemail; try discriminate; reflexivity. }
  rewrite (handleSubscribe_validated chunks st parsed (JStr email) Hparse).
  - rewrite Htag, Hname. reflexivity.
  - rewrite (own_prop_get _ _ Hobj). rewrite Hemail. reflexivity.
  - cbn. destruct email; [discriminate Hat | reflexivity].
  - cbn. rewrite Hat. reflexivity.
  - rewrite Htag. cbn. rewrite (string_eqb_false _ _ Ht). reflexivity.
  - rewrite Hname. cbn. rewrite (string_eqb_false _ _ Hn). reflexivity.
Qed.

Lemma subscribe_without_key (st : state W) (email tag name deadline : js_value) :
  env_set (BUTTONDOWN_API_KEY (env st)) = false ->
  subscribeToButtondown email tag name deadline st
  = (Throw (Error "BUTTONDOWN_API_KEY not set"), st).
Proof.
  intros Hkey. unfold subscribeToButtondown. unfold bind at 1. unfold get_env.
  destruct (BUTTONDOWN_API_KEY (env st)) as [key|]; [|reflexivity].
  cbn in Hkey. apply negb_false_iff in Hkey. rewrite Hkey. reflexivity.
Qed.

Lemma subscribe_state (st : state W) (email tag name deadline : js_value) key :
  BUTTONDOWN_API_KEY (env st) = Some key -> key <> "" ->
  let create := create_request key email tag name deadline (Date_now (world st)) in
  snd (subscribeToButtondown email tag name deadline st)
  = fetched_state st create (snd (http create (world st))).
Proof.
  intros Hkey Hne create. subst create. unfold create_request, subscribeToButtondown.
  unfold bind at 1. unfold get_env. rewrite Hkey, (string_eqb_false _ _ Hne).
  unfold bind at 1, now at 1. unfold bind at 1. unfold fetch.
  destruct (http _ (world st)) as [[e|resp] w1]; [reflexivity|].
  destruct (ok resp); cbn [negb snd].
  - unfold lift. reflexivity.
  - unfold bind at 1, lift at 1. destruct (text resp) as [body|e]; [|reflexivity].
    unfold bind at 1, try_catch at 1, bind at 1, lift at 1.
    destruct (JSON_parse body) as [parsed|e].
    + unfold bind at 1, lift at 1.
      destruct (get_prop parsed "detail") as [detail|e].
      * unfold bind at 1, lift at 1.
        destruct (get_prop parsed "code") as [code|e]; unfold ret at 1.
        -- unfold bind at 1, lift at 1. destruct (ToString _); reflexivity.
        -- unfold bind at 1, lift at 1. destruct (ToString _); reflexivity.
      * unfold ret at 1. unfold bind at 1, lift at 1. destruct (ToString _); reflexivity.
    + unfold ret at 1. unfold bind at 1, lift at 1. destruct (ToString _); reflexivity.
Qed.

Lemma indicator_needs_key (st st1 : state W) (email tag name deadline : js_value) e :
  subscribeToButtondown email tag name deadline st = (Throw e, st1) ->
  String_includes (message e) "already subscribed" = true ->
  exists key, BUTTONDOWN_API_KEY (env st) = Some key /\ key <> "".
Proof.
  intros Hthrow Hinc.
  destruct (env_set (BUTTONDOWN_API_KEY (env st))) eqn:Hset.
  - apply env_set_some. exact Hset.
  - rewrite (subscribe_without_key st _ _ _ _ Hset) in Hthrow.
    injection Hthrow as <- _. cbn in Hinc. discriminate.
Qed.

Lemma update_malformed (st : state W) (email tag name deadline : js_value)
    (address key : string) (e : js_error) :
  BUTTONDOWN_API_KEY (env st) = Some key -> key <> "" ->
  ToString email = Return address ->
  encodeURIComponent address = Throw e ->
  updateButtondownSubscriber email tag name deadline st = (Throw e, st).
Proof.
  intros Hkey Hne Haddress Hencoded. unfold updateButtondownSubscriber.
  unfold bind at 1. unfold get_env. rewrite Hkey, (string_eqb_false _ _ Hne).
  unfold bind at 1, lift at 1. rewrite Haddress.
  unfold bind at 1, lift at 1. rewrite Hencoded. reflexivity.
Qed.

Lemma update_unfolded (st : state W) (email name deadline : js_value)
    (address encoded tag key : string) :
  BUTTONDOWN_API_KEY (env st) = Some key -> key <> "" ->
  ToString email = Return address ->
  encodeURIComponent address = Return encoded ->
  updateButtondownSubscriber email (JStr tag) name deadline st
  = match http (search_request key encoded) (world st) with
    | (Rejected e, w1) => (Throw e, fetched_state st (search_request key encoded) w1)
    | (Responded search, w1) =>
        let st1 := fetched_state st (search_request key encoded) w1 in
        if negb (ok search) then (Throw (Error "Failed to find subscriber"), st1)
        else
          match json search with
          | Throw e => (Throw e, st1)
          | Return data =>
              match results data with
              | None | Some [] => (Throw (Error "Subscriber not found"), st1)
              | Some (sub :: _) =>
                  let patch := patch_request key sub tag name deadline (Date_now w1) in
                  match http patch w1 with
                  | (Rejected e, w2) => (Throw e, fetched_state st1 patch w2)
                  | (Responded upd, w2) =>
                      (if negb (ok upd) then
                         match text upd with
                         | Return body => Throw (Error body)
                         | Throw e => Throw e
                         end
                       else json upd,
                       fetched_state st1 patch w2)
                  end
              end
          end
    end.
Proof.
  intros Hkey Hne Haddress Hencoded. unfold updateButtondownSubscriber.
  unfold bind at 1. unfold get_env. rewrite Hkey, (string_eqb_false _ _ Hne).
  unfold bind at 1, lift at 1. rewrite Haddress.
  unfold bind at 1, lift at 1. rewrite Hencoded.
  unfold bind at 1. unfold fetch at 1. unfold search_request.
  destruct (http (GetSubscribers key encoded) (world st)) as [[e|search] w1];
    [reflexivity|].
  cbv zeta. destruct (ok search); cbn [negb]; [|reflexivity].
  unfold bind at 1, lift at 1. destruct (json search) as [data|e]; [|reflexivity].
  destruct (results data) as [[|sub rest]|]; [reflexivity| |reflexivity].
  unfold bind at 1, lift at 1. cbn [ToString].
  unfold bind at 1, now at 1. cbn [world fetched_state].
  unfold bind at 1. unfold fetch at 1. cbn [world fetched_state].
  fold (updatedMeta (sub_metadata sub) tag
          (settlement_record name deadline (Date_toISOString (Date_now w1)))).
  fold (patch_request key sub tag name deadline (Date_now w1)).
  destruct (http (patch_request key sub tag name deadline (Date_now w1)) w1)
    as [[e|upd] w2]; [reflexivity|].
  destruct (ok upd); cbn [negb].
  - unfold lift. reflexivity.
  - unfold bind at 1, lift at 1. destruct (text upd); reflexivity.
Qed.

Lemma update_reply_state (r : completion js_value * state W) :
  snd (update_reply r) = snd r.
Proof. destruct r as [[v|e] st]; reflexivity. Qed.

Lemma update_starts_with_search (st : state W) (email name deadline : js_value)
    (address encoded tag key : string) :
  BUTTONDOWN_API_KEY (env st) = Some key -> key <> "" ->
  ToString email = Return address ->
  encodeURIComponent address = Return encoded ->
  exists rest,
    requests (snd (updateButtondownSubscriber email (JStr tag) name deadline st))
    = (requests st ++ search_request key encoded :: rest)%list.
Proof.
  intros Hkey Hne Haddress Hencoded.
  rewrite (update_unfolded st email name deadline address encoded tag key
             Hkey Hne Haddress Hencoded).
  destruct (http (search_request key encoded) (world st)) as [[e|search] w1];
    [exists []; reflexivity|].
  cbv zeta. destruct (negb (ok search)); [exists []; reflexivity|].
  destruct (json search) as [data|e]; [|exists []; reflexivity].
  destruct (results data) as [[|sub rest]|]; try (exists []; reflexivity).
  destruct (http _ w1) as [[e|upd] w2]; eexists; cbn [snd fetched_state requests];
    rewrite <- app_assoc; reflexivity.
Qed.

(** The state the create step leaves still holds the credential. *)
Lemma key_after_create (st st1 : state W) (email tag name deadline : js_value)
    (key : string) (r : completion js_value) :
  BUTTONDOWN_API_KEY (env st) = Some key -> key <> "" ->
  subscribeToButtondown email tag name deadline st = (r, st1) ->
  BUTTONDOWN_API_KEY (env st1) = Some key.
Proof.
  intros Hkey Hne Hrun.
  pose proof (subscribe_state st email tag name deadline key Hkey Hne) as Hstate.
  rewrite Hrun in Hstate. cbn [snd] in Hstate. rewrite Hstate. exact Hkey.
Qed.

(** C7: when the create step fails, [handleSubscribe] falls back to the
    update path if and only if the failure message contains
    ["already subscribed"].  If it does, the answer is that of the update
    path run from the state the create left (200 with the "added" message
    when it succeeds, 500 with its message otherwise): when the email can be
    encoded, a search request for the encoded email follows the create; when
    it cannot (a lone surrogate), the update path fails before it sends
    anything and the answer is 500 with that error's message.  If the
    failure message does not contain the indicator, the failure is passed on
    as a 500 carrying its message, from the very state the create left:
    nothing of the update path has run. *)
Theorem create_failure_dispatch (chunks : list string) (st st1 : state W)
    (parsed : js_value) (email tag name : string) (err : js_error) :
  parseJsonBody chunks st = (Return parsed, st) ->
  subscription parsed email tag name ->
  subscribeToButtondown (JStr email) (JStr tag) (JStr name) (deadline_of parsed) st
  = (Throw err, st1) ->
  let after := handleSubscribe "POST" chunks st in
  (String_includes (message err) "already subscribed" = true ->
   after = update_reply
             (updateButtondownSubscriber (JStr email) (JStr tag) (JStr name)
                (deadline_of parsed) st1)
   /\ (forall encoded,
         encodeURIComponent email = Return encoded ->
         exists key rest,
           requests (snd after)
           = (requests st1 ++ search_request key encoded :: rest)%list)
   /\ (forall e,
         encodeURIComponent email = Throw e ->
         after = (Return (plain 500 (ErrorJson (shown e))), st1)))
  /\ (String_includes (message err) "already subscribed" = false ->
      after = (Return (plain 500 (ErrorJson (shown err))), st1)).
Proof.
  intros Hparse Hvalid Hthrow after. subst after.
  rewrite (subscription_validated chunks st parsed email tag name Hparse Hvalid).
  rewrite Hthrow. split; intros Hinc; rewrite Hinc; [|reflexivity].
  destruct (indicator_needs_key st st1 _ _ _ _ err Hthrow Hinc) as [key [Hkey Hne]].
  pose proof (key_after_create st st1 _ _ _ _ key _ Hkey Hne Hthrow) as Hkey1.
  split; [reflexivity|]. split.
  - intros encoded Hencoded. rewrite update_reply_state. exists key.
    apply (update_starts_with_search st1 (JStr email) (JStr name) (deadline_of parsed)
             email encoded tag key Hkey1 Hne eq_refl Hencoded).
  - intros e Hmalformed.
    rewrite (update_malformed st1 (JStr email) (JStr tag) (JStr name)
               (deadline_of parsed) email key e Hkey1 Hne eq_refl Hmalformed).
    reflexivity.
Qed.

(** C9: when the create step fails with the ["already subscribed"]
    indicator and the search for the encoded email answers with no results
    (the list is missing or empty), [handleSubscribe] answers 500 with
    ["Subscriber not found"], and the search is the last request made: no
    patch is sent. *)
Theorem missing_subscriber_is_reported (chunks : list string) (st st1 : state W)
    (parsed : js_value) (email encoded tag name key : string) (err : js_error)
    (search : response search_data) (w2 : W) (data : search_data) :
  parseJsonBody chunks st = (Return parsed, st) ->
  subscription parsed email tag name ->
  BUTTONDOWN_API_KEY (env st) = Some key ->
  subscribeToButtondown (JStr email) (JStr tag) (JStr name) (deadline_of parsed) st
  = (Throw err, st1) ->
  String_includes (message err) "already subscribed" = true ->
  encodeURIComponent email = Return encoded ->
  http (search_request key encoded) (world st1) = (Responded search, w2) ->
  ok search = true ->
  json search = Return data ->
  results data = None \/ results data = Some [] ->
  handleSubscribe "POST" chunks st
  = (Return {| status := 500; cache_control := None;
               body := ErrorJson "Subscriber not found" |},
     fetched_state st1 (search_request key encoded) w2)
  /\ requests (snd (handleSubscribe "POST" chunks st))
     = (requests st1 ++ [search_request key encoded])%list.
Proof.
  intros Hparse Hvalid Hkey Hthrow Hinc Hencoded Hhttp Hok Hjson Hnone.
  assert (Hreply : handleSubscribe "POST" chunks st
                   = (Return (plain 500 (ErrorJson "Subscriber not found")),
                      fetched_state st1 (search_request key encoded) w2)).
  { rewrite (subscription_validated chunks st parsed email tag name Hparse Hvalid).
    rewrite Hthrow, Hinc.
    destruct (indicator_needs_key st st1 _ _ _ _ err Hthrow Hinc) as [key' [Hkey' Hne]].
    assert (key' = key) by congruence. subst key'.
    pose proof (key_after_create st st1 _ _ _ _ key _ Hkey Hne Hthrow) as Hkey1.
    rewrite (update_unfolded st1 (JStr email) (JStr name) (deadline_of parsed)
               email encoded tag key Hkey1 Hne eq_refl Hencoded).
    rewrite Hhttp. cbv beta iota zeta. cbn [json_of search_request].
    rewrite Hok, Hjson. cbn [negb].
    destruct Hnone as [-> | ->]; reflexivity. }
  split; [exact Hreply | rewrite Hreply; reflexivity].
Qed.

Lemma includes_string_tag (tags : list string) (tag : string) :
  existsb (fun x => same_value_zero x (JStr tag)) (map JStr tags)
  = existsb (fun u => String.eqb u tag) tags.
Proof.
  induction tags as [|u tags IH]; [reflexivity|].
  cbn. rewrite IH. reflexivity.
Qed.

Lemma existsb_eqb_In (tags : list string) (tag : string) :
  existsb (fun u => String.eqb u tag) tags = true <-> In tag tags.
Proof.
  rewrite existsb_exists. split.
  - intros [u [Hin Heq]]. apply String.eqb_eq in Heq. subst u. exact Hin.
  - intros Hin. exists tag. split; [exact Hin | apply String.eqb_refl].
Qed.

Lemma updatedTags_text (present : option (list js_value))
    (tags : list string) (tag : string) :
  default [] present = map JStr tags ->
  updatedTags present (JStr tag)
  = map JStr (if existsb (fun u => String.eqb u tag) tags then tags
              else (tags ++ [tag])%list).
Proof.
  intros Hpresent. unfold updatedTags. rewrite Hpresent, includes_string_tag.
  destruct (existsb _ tags); [reflexivity|].
  rewrite map_app. reflexivity.
Qed.

(** The merged tags of a duplicate-free list of string tags. *)
Lemma updatedTags_strings (present : option (list js_value))
    (tags : list string) (tag : string) :
  default [] present = map JStr tags ->
  List.NoDup tags ->
  exists tags',
    updatedTags present (JStr tag) = map JStr tags'
    /\ count_occ string_dec tags' tag = 1
    /\ (forall u, In u tags -> In u tags')
    /\ (forall u, In u tags' -> u = tag \/ In u tags)
    /\ updatedTags (Some (map JStr tags')) (JStr tag) = map JStr tags'.
Proof.
  intros Hpresent Hnodup.
  rewrite (updatedTags_text present tags tag Hpresent).
  destruct (existsb (fun u => String.eqb u tag) tags) eqn:Hin.
  - exists tags. pose proof (proj1 (existsb_eqb_In tags tag) Hin) as Hmem.
    repeat split; auto.
    + exact (proj1 (NoDup_count_occ' string_dec tags) Hnodup tag Hmem).
    + rewrite (updatedTags_text (Some (map JStr tags)) tags tag eq_refl), Hin.
      reflexivity.
  - exists (tags ++ [tag])%list.
    assert (Hout : ~ In tag tags).
    { intros Hmem. apply existsb_eqb_In in Hmem. congruence. }
    assert (Hnow : existsb (fun u => String.eqb u tag) (tags ++ [tag]) = true).
    { apply existsb_eqb_In. apply in_or_app. right. left. reflexivity. }
    repeat split.
    + rewrite count_occ_app. rewrite (proj1 (count_occ_not_In string_dec tags tag) Hout).
      cbn. destruct (string_dec tag tag); [reflexivity | congruence].
    + intros u Hu. apply in_or_app. left. exact Hu.
    + intros u Hu. apply in_app_or in Hu as [Hu | [Hu | []]]; auto.
    + rewrite (updatedTags_text (Some (map JStr (tags ++ [tag]))) (tags ++ [tag]) tag
                 eq_refl), Hnow.
      reflexivity.
Qed.

(** C8: for a subscriber found (by the search for the encoded email) with
    a duplicate-free list of string tags (or none) and any metadata (or
    none), the update path sends a patch whose tag list holds the tag exactly
    once, keeps every tag that was there and adds nothing but the tag, and
    whose metadata is the subscriber's with only the key [settlement_<tag>]
    set to the new serialised record, [JSON.stringify] of
    [{name, deadline, subscribedAt}]: every other key is as it was.  Merging
    the tag into the merged list again changes nothing. *)
Theorem update_merges (st : state W) (name deadline : js_value)
    (email encoded tag key : string) (search : response search_data) (w1 : W)
    (data : search_data) (sub : subscriber) (others : list subscriber)
    (tags : list string) :
  BUTTONDOWN_API_KEY (env st) = Some key -> key <> "" ->
  encodeURIComponent email = Return encoded ->
  http (search_request key encoded) (world st) = (Responded search, w1) ->
  ok search = true ->
  json search = Return data ->
  results data = Some (sub :: others) ->
  default [] (sub_tags sub) = map JStr tags ->
  List.NoDup tags ->
  exists (tags' : list string) (meta' : gmap string js_value),
    (requests (snd (updateButtondownSubscriber (JStr email) (JStr tag) name deadline st))
     = requests st ++ [GetSubscribers key encoded;
                       PatchSubscriber key (sub_id sub) (map JStr tags') meta'])%list
    /\ count_occ string_dec tags' tag = 1
    /\ (forall u, In u tags -> In u tags')
    /\ (forall u, In u tags' -> u = tag \/ In u tags)
    /\ updatedTags (Some (map JStr tags')) (JStr tag) = map JStr tags'
    /\ meta' = <["settlement_" ++ tag :=
                   JStr (JSON_stringify
                           (JObj [("name", name); ("deadline", deadline);
                                  ("subscribedAt",
                                   JStr (Date_toISOString (Date_now w1)))]))]>
                 (default ∅ (sub_metadata sub))
    /\ (forall k, k <> "settlement_" ++ tag ->
        meta' !! k = default ∅ (sub_metadata sub) !! k).
Proof.
  intros Hkey Hne Hencoded Hhttp Hok Hjson Hresults Htags Hnodup.
  destruct (updatedTags_strings (sub_tags sub) tags tag Htags Hnodup)
    as [tags' [Hmerged [Honce [Hkept [Honly Hidem]]]]].
  exists tags'. eexists. split; [|repeat split; eauto].
  - rewrite (update_unfolded st (JStr email) name deadline email encoded tag key
               Hkey Hne eq_refl Hencoded).
    rewrite Hhttp. cbv beta iota zeta. cbn [json_of search_request].
    rewrite Hok, Hjson, Hresults. cbn [negb].
    unfold patch_request, updatedMeta, settlement_record. rewrite Hmerged.
    destruct (http _ w1) as [[e|upd] w2]; cbn [snd fetched_state requests];
      rewrite <- app_assoc; reflexivity.
  - intros k Hk. apply lookup_insert_ne. congruence.
Qed.

(** X20: for a parsed body whose [email] is missing or a string, if the
    email is missing or has no ['@'], or the settlement id is empty, or the
    settlement name is empty, [handleSubscribe] answers 400 (with one of its
    two validation messages) and leaves the state as it was: no request of
    any kind has been sent. *)
Theorem invalid_input_rejected (chunks : list string) (st : state W)
    (parsed email : js_value) :
  parseJsonBody chunks st = (Return parsed, st) ->
  get_prop parsed "email" = Return email ->
  truthy email = false \/ (exists s, email = JStr s) ->
  truthy email = false
  \/ (exists s, email = JStr s /\ String_includes s "@" = false)
  \/ truthy (own_prop parsed "settlementId") = false
  \/ truthy (own_prop parsed "settlementName") = false ->
  exists why,
    (why = "Invalid email address" \/ why = "Missing required fields")
    /\ handleSubscribe "POST" chunks st = (Return (plain 400 (ErrorJson why)), st)
    /\ requests (snd (handleSubscribe "POST" chunks st)) = requests st.
Proof.
  intros Hparse Hemail Htyped Hbad.
  assert (Hreply : exists why,
             (why = "Invalid email address" \/ why = "Missing required fields")
             /\ handleSubscribe "POST" chunks st
                = (Return (plain 400 (ErrorJson why)), st)).
  { unfold handleSubscribe. cbn [String.eqb Ascii.eqb Bool.eqb negb].
    unfold try_catch at 1. unfold bind at 1. rewrite Hparse.
    unfold bind at 1, lift at 1. rewrite Hemail.
    unfold bind at 1.
    destruct (truthy email) eqn:Htruthy; cbn [negb].
    - destruct Htyped as [Hfalse | [s ->]]; [discriminate|].
      unfold bind at 1, lift at 1. cbn [js_includes ToString].
      unfold ret at 1.
      destruct (String_includes s "@") eqn:Hat; cbn [negb].
      + destruct Hbad as [Hfalse | [[s' [Heq Hno]] | Hfields]]; [discriminate| |].
        * injection Heq as <-. congruence.
        * assert (Hor : negb (truthy (own_prop parsed "settlementId"))
                        || negb (truthy (own_prop parsed "settlementName")) = true).
          { destruct Hfields as [-> | ->]; cbn; [reflexivity | apply orb_true_r]. }
          rewrite Hor. unfold ret. eauto.
      + unfold ret. eauto.
    - unfold ret. eauto. }
  destruct Hreply as [why [Hwhy Hreply]]. exists why.
  repeat split; [exact Hwhy | exact Hreply | rewrite Hreply; reflexivity].
Qed.

End Subscription.

(** ** Further facts about the subscribe handler *)

Section Boundaries.
Context {W : Type} `{Builtins} `{Upstream W}.

(** X1: unless the parsed body passes both checks of the validation, the
    handler sends nothing: a request is made only for a truthy [email] whose
    [includes('@')] is true and truthy [settlementId] and [settlementName],
    whatever the types of the fields. *)
Lemma requests_need_valid_input (chunks : list string) (st : state W) :
  requests (snd (handleSubscribe "POST" chunks st)) <> requests st ->
  exists parsed email,
    parseJsonBody chunks st = (Return parsed, st)
    /\ get_prop parsed "email" = Return email
    /\ truthy email = true
    /\ js_includes email (JStr "@") = Return true
    /\ truthy (own_prop parsed "settlementId") = true
    /\ truthy (own_prop parsed "settlementName") = true.
Proof.
  destruct (parseJsonBody_returns chunks st) as [parsed Hparse].
  unfold handleSubscribe. cbn [String.eqb Ascii.eqb Bool.eqb negb].
  unfold try_catch at 1. unfold bind at 1. rewrite Hparse.
  unfold bind at 1, lift at 1.
  destruct (get_prop parsed "email") as [email|e] eqn:Hemail;
    [|intros Hsent; contradiction Hsent; reflexivity].
  unfold bind at 1.
  destruct (truthy email) eqn:Htruthy; cbn [negb];
    [|intros Hsent; contradiction Hsent; reflexivity].
  unfold bind at 1, lift at 1.
  destruct (js_includes email (JStr "@")) as [[|]|e] eqn:Hat; unfold ret at 1;
    cbn [negb]; try (intros Hsent; contradiction Hsent; reflexivity).
  destruct (truthy (own_prop parsed "settlementId")) eqn:Hid; cbn [negb orb];
    [|intros Hsent; contradiction Hsent; reflexivity].
  destruct (truthy (own_prop parsed "settlementName")) eqn:Hname; cbn [negb];
    [|intros Hsent; contradiction Hsent; reflexivity].
  intros _. exists parsed, email. repeat split; assumption.
Qed.

(** X3: the body [null] is valid JSON, so it is not replaced by the empty
    object: the destructuring throws and the handler answers 500. *)
Lemma null_body_is_server_error (st : state W) :
  JSON_parse "null" = Return JNull ->
  handleSubscribe "POST" ["null"] st
  = (Return (plain 500 (ErrorJson (shown (TypeError ReadOfNullish)))), st).
Proof.
  intros Hnull. unfold handleSubscribe. cbn [String.eqb Ascii.eqb Bool.eqb negb].
  assert (Hparse : parseJsonBody ["null"] st = (Return JNull, st)).
  { unfold parseJsonBody, try_catch, lift.
    change (body_text ["null"]) with "null".
    cbn [String.eqb Ascii.eqb Bool.eqb]. rewrite Hnull. reflexivity. }
  unfold try_catch at 1. unfold bind at 1. rewrite Hparse. reflexivity.
Qed.

(** X5: a truthy [email] that is a number has no [includes] method: the call
    throws inside the outer [try], and the handler answers 500 instead of
    400.  Nothing is sent. *)
Lemma numeric_email_is_server_error (chunks : list string) (st : state W)
    (parsed : js_value) (x : float) :
  parseJsonBody chunks st = (Return parsed, st) ->
  get_prop parsed "email" = Return (JNum x) ->
  truthy (JNum x) = true ->
  handleSubscribe "POST" chunks st
  = (Return (plain 500 (ErrorJson (shown (TypeError NotAFunction)))), st).
Proof.
  intros Hparse Hemail Htruthy.
  unfold handleSubscribe. cbn [String.eqb Ascii.eqb Bool.eqb negb].
  unfold try_catch at 1. unfold bind at 1. rewrite Hparse.
  unfold bind at 1, lift at 1. rewrite Hemail.
  unfold bind at 1. rewrite Htruthy. reflexivity.
Qed.

(** X4: a valid subscription request, with the credential set, always sends
    the create request first: the email, the one tag, and the flat metadata of
    [create_metadata]. *)
Lemma create_request_sent (chunks : list string) (st : state W)
    (parsed : js_value) (email tag name key : string) :
  parseJsonBody chunks st = (Return parsed, st) ->
  subscription parsed email tag name ->
  BUTTONDOWN_API_KEY (env st) = Some key -> key <> "" ->
  exists rest,
    requests (snd (handleSubscribe "POST" chunks st))
    = (requests st
       ++ create_request key (JStr email) (JStr tag) (JStr name)
            (deadline_of parsed) (Date_now (world st)) :: rest)%list.
Proof.
  intros Hparse Hvalid Hkey Hne.
  rewrite (subscription_validated chunks st parsed email tag name Hparse Hvalid).
  pose proof (subscribe_state st (JStr email) (JStr tag) (JStr name)
                (deadline_of parsed) key Hkey Hne) as Hstate.
  cbv zeta in Hstate.
  destruct (subscribeToButtondown _ _ _ _ st) as [[v|err] st1]; cbn [snd] in Hstate.
  - exists []. rewrite Hstate. reflexivity.
  - destruct (String_includes (message err) "already subscribed").
    + rewrite update_reply_state.
      assert (Hkey1 : BUTTONDOWN_API_KEY (env st1) = Some key)
        by (rewrite Hstate; exact Hkey).
      destruct (encodeURIComponent email) as [encoded|e] eqn:Hencoded.
      * destruct (update_starts_with_search st1 (JStr email) (JStr name)
                    (deadline_of parsed) email encoded tag key Hkey1 Hne eq_refl
                    Hencoded)
          as [rest Hrest].
        exists (search_request key encoded :: rest). rewrite Hrest, Hstate.
        cbn [requests fetched_state]. rewrite <- app_assoc. reflexivity.
      * rewrite (update_malformed st1 (JStr email) (JStr tag) (JStr name)
                   (deadline_of parsed) email key e Hkey1 Hne eq_refl Hencoded).
        exists []. rewrite Hstate. reflexivity.
    + exists []. rewrite Hstate. reflexivity.
Qed.

End Boundaries.

(** ** The create path keeps no per-settlement key *)

(** X2: the metadata of a create request has no key of the form
    [settlement_<tag>]: its keys are [settlementName], [subscribedAt] and,
    for a truthy deadline, [deadline]. *)
Lemma create_metadata_unkeyed (name deadline : js_value) (subscribedAt tag : string) :
  create_metadata name deadline subscribedAt !! ("settlement_" ++ tag) = None.
Proof.
  unfold create_metadata.
  destruct (truthy deadline);
    rewrite !lookup_insert_ne by (intros Heq; discriminate Heq);
    apply lookup_empty.
Qed.

(** C1 (the code departs from the claim): on the sample mailing list with no
    subscriber, posting [user@x.com] for [tagA] is answered with 200 and
    sends one create request with tags [[tagA]], but its metadata, and so
    the metadata of the subscriber created, has no key [settlement_tagA]:
    the record is stored flat, under [settlementName] and [subscribedAt]. *)
Theorem create_stores_flat_metadata :
  fst (handleSubscribe "POST" [sample_text "user@x.com" "tagA"] (boot empty_list))
  = Return (plain 200 (SuccessJson created_message))
  /\ requests after_first
     = [create_request "bd-key" (JStr "user@x.com") (JStr "tagA") (JStr "Name")
          JNull (list_clock empty_list)]
  /\ map sub_tags (subscribers (world after_first)) = [Some [JStr "tagA"]]
  /\ map (fun s => default ∅ (sub_metadata s) !! "settlement_tagA")
       (subscribers (world after_first)) = [None]
  /\ map (fun s => default ∅ (sub_metadata s) !! "settlementName")
       (subscribers (world after_first)) = [Some (JStr "Name")].
Proof. vm_compute. repeat split; reflexivity. Qed.

(** C2 (the code departs from the claim): on the sample mailing list, posting
    [user@x.com] for [tagA] and then for [tagB] ends with one subscriber
    tagged [[tagA; tagB]] whose metadata holds [settlement_tagB] but no
    [settlement_tagA]: the first settlement is still the flat record of the
    create path. *)
Theorem second_settlement_leaves_first_unkeyed :
  fst (handleSubscribe "POST" [sample_text "user@x.com" "tagB"] after_first)
  = Return (plain 200 (SuccessJson updated_message))
  /\ map sub_tags (subscribers (world after_second))
     = [Some [JStr "tagA"; JStr "tagB"]]
  /\ map (fun s => default ∅ (sub_metadata s) !! "settlement_tagB")
       (subscribers (world after_second))
     = [Some (settlement_record (JStr "Name") JNull "2025-01-01T00:00:00.000Z")]
  /\ map (fun s => default ∅ (sub_metadata s) !! "settlement_tagA")
       (subscribers (world after_second)) = [None]
  /\ map (fun s => default ∅ (sub_metadata s) !! "settlementName")
       (subscribers (world after_second)) = [Some (JStr "Name")].
Proof. vm_compute. repeat split; reflexivity. Qed.

(** ** An email that is not a text *)

(** C6 (the code departs from the claim): the body [{"email":5}] has an
    email without ['@'] (and no settlement id or name), yet it is not
    rejected as a client error: the check [email.includes('@')] throws, and
    the handler answers 500 with the engine's message.  Nothing is sent. *)
Theorem numeric_email_escapes_validation :
  handleSubscribe "POST" [numeric_text] (boot empty_list)
  = (Return {| status := 500; cache_control := None;
               body := ErrorJson "email.includes is not a function" |},
     boot empty_list)
  /\ requests (snd (handleSubscribe "POST" [numeric_text] (boot empty_list))) = [].
Proof. vm_compute. split; reflexivity. Qed.

(** ** The theorems at concrete inputs *)

(** C3 at [fred_script], with the 15-year series configured: the
    placeholder is skipped, 6.61 becomes 7.1, and the source is that
    series. *)
Lemma getQuote_transforms_first_valid_witness :
  fst (handleRate "GET" (tuned fred_script))
  = Return {| status := 200;
              cache_control := Some "public, max-age=3600";
              body := QuoteJson {| ratePercent := 7.1%float;
                                   rawPercent := Some 6.61%float;
                                   adjustedAdded := 0.5%float;
                                   observationDate := JStr "2025-01-02";
                                   source := "MORTGAGE15US" |} |}.
Proof.
  refine (getQuote_transforms_first_valid (tuned fred_script)
            "MORTGAGE15US" "fred-key"
            (observations_response two_weeks)
            {| script_clock := 1736000000001; pending := [] |}
            (observations_data two_weeks) two_weeks
            [observation "2025-01-09" "."]
            (observation "2025-01-02" "6.61") "6.61" _ _ _ _ _ _ _ _ _ _).
  - left. reflexivity.
  - left. split; [reflexivity | discriminate].
  - reflexivity.
  - discriminate.
  - reflexivity.
  - reflexivity.
  - reflexivity.
  - reflexivity.
  - split; [exists []; reflexivity|].
    split; [repeat constructor; right; right; reflexivity|].
    split; [reflexivity|]. split; discriminate.
  - reflexivity.
Defined.

(** C4 at [sentinel_script]: only placeholders, so the fallback quote. *)
Lemma getQuote_never_fails_witness :
  exists st',
    handleRate "GET" (boot sentinel_script)
    = (Return {| status := 200;
                 cache_control := Some "public, max-age=3600";
                 body := QuoteJson {| ratePercent := 5.5%float;
                                      rawPercent := None;
                                      adjustedAdded := 0.5%float;
                                      observationDate := JNull;
                                      source := "fallback" |} |}, st')
    /\ fredCache st'
       = Some {| ts := 1736000000000;
                 payload := {| ratePercent := 5.5%float;
                               rawPercent := None;
                               adjustedAdded := 0.5%float;
                               observationDate := JNull;
                               source := "fallback" |} |}.
Proof.
  refine (proj2 (getQuote_never_fails (boot sentinel_script)) _ _).
  - left. reflexivity.
  - refine (observations_unusable (boot sentinel_script) "MORTGAGE30US" "fred-key"
              (observations_response placeholders)
              {| script_clock := 1736000000001; pending := [] |}
              (observations_data placeholders) placeholders _ _ _ _ _ _ _ _).
    + right. split; [left|]; reflexivity.
    + reflexivity.
    + discriminate.
    + reflexivity.
    + reflexivity.
    + reflexivity.
    + reflexivity.
    + repeat constructor; right; right; reflexivity.
Defined.

(** C5 at the edge of the hour: 3 599 999 ms after the fetch the cached
    quote is served and the state stays as it is; one millisecond later the
    entry has expired, the fetch is tried again (the script has no answer
    left) and the cache holds a new entry stamped with that time. *)
Lemma cache_entry_lifetime_witness :
  handleRate "GET" (aged 3599999)
  = (Return {| status := 200;
               cache_control := Some "public, max-age=3600";
               body := QuoteJson {| ratePercent := 7.1%float;
                                    rawPercent := Some 6.61%float;
                                    adjustedAdded := 0.5%float;
                                    observationDate := JStr "2025-01-02";
                                    source := "MORTGAGE30US" |} |},
     aged 3599999)
  /\ expired (aged 3600000)
  /\ fredCache (snd (handleRate "GET" (aged 3600000)))
     = Some {| ts := 1736003600000;
               payload := {| ratePercent := 5.5%float;
                             rawPercent := None;
                             adjustedAdded := 0.5%float;
                             observationDate := JNull;
                             source := "fallback" |} |}.
Proof.
  split; [|split].
  - refine (proj1 (cache_entry_lifetime (aged 3599999))
              {| ts := 1736000000000;
                 payload := {| ratePercent := 7.1%float;
                               rawPercent := Some 6.61%float;
                               adjustedAdded := 0.5%float;
                               observationDate := JStr "2025-01-02";
                               source := "MORTGAGE30US" |} |} _ _).
    + reflexivity.
    + vm_compute. reflexivity.
  - refine (proj2 (proj2 (cache_entry_lifetime (aged 3600000))) _).
    vm_compute. intros Hsame. discriminate Hsame.
  - vm_compute. reflexivity.
Defined.

(** X20 at an email without ['@']. *)
Lemma invalid_input_rejected_witness :
  exists why,
    (why = "Invalid email address" \/ why = "Missing required fields")
    /\ handleSubscribe "POST" [sample_text "user.x.com" "tagA"] (boot empty_list)
       = (Return (plain 400 (ErrorJson why)), boot empty_list)
    /\ requests (snd (handleSubscribe "POST" [sample_text "user.x.com" "tagA"]
                        (boot empty_list)))
       = requests (boot empty_list).
Proof.
  refine (invalid_input_rejected [sample_text "user.x.com" "tagA"] (boot empty_list)
            (sample_body "user.x.com" "tagA") (JStr "user.x.com") _ _ _ _).
  - reflexivity.
  - reflexivity.
  - right. exists "user.x.com". reflexivity.
  - right. left. exists "user.x.com". split; reflexivity.
Defined.

Lemma sample_subscription (tag : string) :
  tag <> "" -> subscription (sample_body "user@x.com" tag) "user@x.com" tag "Name".
Proof.
  intros Htag. constructor; try reflexivity; [exact Htag | discriminate].
Defined.

(** C7 at the second post of the same email: the create is refused as a
    duplicate, the update path answers, and the search for the encoded email
    follows the create. *)
Lemma create_failure_dispatch_witness :
  fst (handleSubscribe "POST" [sample_text "user@x.com" "tagB"] after_first)
  = Return {| status := 200; cache_control := None;
              body := SuccessJson "Settlement added to your subscriptions!" |}
  /\ exists key rest,
       requests (snd (handleSubscribe "POST" [sample_text "user@x.com" "tagB"]
                        after_first))
       = (requests (snd (subscribeToButtondown (JStr "user@x.com") (JStr "tagB")
                           (JStr "Name") JNull after_first))
          ++ GetSubscribers key "user%40x.com" :: rest)%list.
Proof.
  destruct (create_failure_dispatch [sample_text "user@x.com" "tagB"] after_first
              (snd (subscribeToButtondown (JStr "user@x.com") (JStr "tagB")
                      (JStr "Name") JNull after_first))
              (sample_body "user@x.com" "tagB") "user@x.com" "tagB" "Name"
              (Error "That email address is already subscribed."))
    as [Hfallback _].
  - reflexivity.
  - apply sample_subscription. discriminate.
  - reflexivity.
  - destruct (Hfallback eq_refl) as [Hafter [Hsearch _]]. split.
    + rewrite Hafter. reflexivity.
    + exact (Hsearch "user%40x.com" eq_refl).
Defined.

(** C9 at [lost_script]: a duplicate that the search does not find. *)
Lemma missing_subscriber_is_reported_witness :
  fst (handleSubscribe "POST" [sample_text "user@x.com" "tagA"] (boot lost_script))
  = Return {| status := 500; cache_control := None;
              body := ErrorJson "Subscriber not found" |}
  /\ requests (snd (handleSubscribe "POST" [sample_text "user@x.com" "tagA"]
                      (boot lost_script)))
     = [create_request "bd-key" (JStr "user@x.com") (JStr "tagA") (JStr "Name")
          JNull 1736000000000;
        GetSubscribers "bd-key" "user%40x.com"].
Proof.
  destruct (missing_subscriber_is_reported [sample_text "user@x.com" "tagA"]
              (boot lost_script)
              (snd (subscribeToButtondown (JStr "user@x.com") (JStr "tagA")
                      (JStr "Name") JNull (boot lost_script)))
              (sample_body "user@x.com" "tagA") "user@x.com" "user%40x.com"
              "tagA" "Name" "bd-key"
              (Error "That email address is already subscribed.")
              (found []) {| script_clock := 1736000000002; pending := [] |}
              {| results := Some [] |})
    as [Hreply Hrequests].
  - reflexivity.
  - apply sample_subscription. discriminate.
  - reflexivity.
  - reflexivity.
  - reflexivity.
  - reflexivity.
  - reflexivity.
  - reflexivity.
  - reflexivity.
  - right. reflexivity.
  - split; [rewrite Hreply | rewrite Hrequests]; reflexivity.
Defined.

(** C8 at [found_script]: [tagB] is added after [tagA], the entry [plan] of
    the metadata stays, and [settlement_tagB] holds the serialised record. *)
Lemma update_merges_witness :
  exists (tags' : list string) (meta' : gmap string js_value),
    (requests (snd (updateButtondownSubscriber (JStr "user@x.com") (JStr "tagB")
                      (JStr "Name") JNull (boot found_script)))
     = requests (boot found_script)
       ++ [GetSubscribers "bd-key" "user%40x.com";
           PatchSubscriber "bd-key" "sub-1" (map JStr tags') meta'])%list
    /\ count_occ string_dec tags' "tagB" = 1
    /\ (forall u, In u ["tagA"] -> In u tags')
    /\ (forall u, In u tags' -> u = "tagB" \/ In u ["tagA"])
    /\ updatedTags (Some (map JStr tags')) (JStr "tagB") = map JStr tags'
    /\ meta' = <["settlement_tagB" :=
                   JStr ("{" ++ json_field "name" "Name" ++ ","
                         ++ quoted "deadline" ++ ":null,"
                         ++ json_field "subscribedAt" "2025-01-01T00:00:00.000Z"
                         ++ "}")]>
                 {["plan" := JStr "free"]}
    /\ (forall k, k <> "settlement_tagB" ->
        meta' !! k = ({["plan" := JStr "free"]} : gmap string js_value) !! k).
Proof.
  refine (update_merges (boot found_script) (JStr "Name") JNull
            "user@x.com" "user%40x.com" "tagB" "bd-key" (found [known_subscriber])
            {| script_clock := 1736000000001; pending := [Plain (Responded accepted)] |}
            {| results := Some [known_subscriber] |} known_subscriber [] ["tagA"]
            _ _ _ _ _ _ _ _ _).
  - reflexivity.
  - discriminate.
  - reflexivity.
  - reflexivity.
  - reflexivity.
  - reflexivity.
  - reflexivity.
  - reflexivity.
  - repeat constructor. intros [].
Defined.

(** C10 at a body that is not JSON. *)
Lemma parseJsonBody_never_raises_witness :
  (exists v, parseJsonBody ["not"; " json"] (boot empty_list)
             = (Return v, boot empty_list))
  /\ (body_text ["not"; " json"] = ""
      \/ (exists e, JSON_parse (body_text ["not"; " json"]) = Throw e) ->
      parseJsonBody ["not"; " json"] (boot empty_list)
      = (Return (JObj []), boot empty_list)
      /\ handleSubscribe "POST" ["not"; " json"] (boot empty_list)
         = (Return (plain 400 (ErrorJson "Invalid email address")), boot empty_list)).
Proof.
  refine (parseJsonBody_never_raises ["not"; " json"] (boot empty_list) _).
  reflexivity.
Defined.

(** [requests_need_valid_input] at the first post of the sample. *)
Lemma requests_need_valid_input_witness :
  exists parsed email,
    parseJsonBody [sample_text "user@x.com" "tagA"] (boot empty_list)
    = (Return parsed, boot empty_list)
    /\ get_prop parsed "email" = Return email
    /\ truthy email = true
    /\ js_includes email (JStr "@") = Return true
    /\ truthy (own_prop parsed "settlementId") = true
    /\ truthy (own_prop parsed "settlementName") = true.
Proof.
  refine (requests_need_valid_input [sample_text "user@x.com" "tagA"]
            (boot empty_list) _).
  vm_compute. discriminate.
Defined.

(** [null_body_is_server_error] on the sample built-ins. *)
Lemma null_body_is_server_error_witness :
  handleSubscribe "POST" ["null"] (boot empty_list)
  = (Return (plain 500 (ErrorJson "Cannot destructure property of null")),
     boot empty_list).
Proof.
  refine (null_body_is_server_error (boot empty_list) _). reflexivity.
Defined.

(** [create_request_sent] at the first post of the sample. *)
Lemma create_request_sent_witness :
  exists rest,
    requests (snd (handleSubscribe "POST" [sample_text "user@x.com" "tagA"]
                     (boot empty_list)))
    = (requests (boot empty_list)
       ++ create_request "bd-key" (JStr "user@x.com") (JStr "tagA") (JStr "Name")
            JNull 1736000000000 :: rest)%list.
Proof.
  refine (create_request_sent [sample_text "user@x.com" "tagA"] (boot empty_list)
            (sample_body "user@x.com" "tagA") "user@x.com" "tagA" "Name" "bd-key"
            _ _ _ _).
  - reflexivity.
  - apply sample_subscription. discriminate.
  - reflexivity.
  - discriminate.
Defined.

(** [numeric_email_is_server_error] at the body whose email is 5. *)
Lemma numeric_email_is_server_error_witness :
  handleSubscribe "POST" [numeric_text] (boot empty_list)
  = (Return (plain 500 (ErrorJson "email.includes is not a function")),
     boot empty_list).
Proof.
  refine (numeric_email_is_server_error [numeric_text] (boot empty_list)
            numeric_body 5%float _ _ _); reflexivity.
Defined.

(** * Further properties *)

(** ** Programs that leave the state alone *)

Section Frames.
Context {W : Type} `{Builtins} `{Upstream W}.

Lemma keeps_ret {A} (a : A) : keeps_state (W := W) (ret a).
Proof. intros st. reflexivity. Qed.

Lemma keeps_throw {A} (e : js_error) : keeps_state (W := W) (A := A) (throw e).
Proof. intros st. reflexivity. Qed.

Lemma keeps_lift {A} (c : completion A) : keeps_state (W := W) (lift c).
Proof. intros st. reflexivity. Qed.

Lemma keeps_now : keeps_state (W := W) now.
Proof. intros st. reflexivity. Qed.

Lemma keeps_get_env : keeps_state (W := W) get_env.
Proof. intros st. reflexivity. Qed.

Lemma keeps_bind {A B} (m : M W A) (k : A -> M W B) :
  keeps_state m -> (forall a, keeps_state (k a)) -> keeps_state (bind m k).
Proof.
  intros Hm Hk st. unfold bind. specialize (Hm st).
  destruct (m st) as [[a|e] st1]; cbn [snd] in Hm; subst st1; [apply Hk | reflexivity].
Qed.

Lemma keeps_try_catch {A} (m : M W A) (handler : js_error -> M W A) :
  keeps_state m -> (forall e, keeps_state (handler e)) ->
  keeps_state (try_catch m handler).
Proof.
  intros Hm Hh st. unfold try_catch. specialize (Hm st).
  destruct (m st) as [[a|e] st1]; cbn [snd] in Hm; subst st1; [reflexivity | apply Hh].
Qed.

(** A [fetch] followed by a program that keeps the state ends in the state
    the [fetch] left, inside a [try] whose handler keeps the state or not. *)
Lemma fetch_then_keeps {A} (r : request) (k : response (json_of r) -> M W A)
    (st : state W) :
  (forall resp, keeps_state (k resp)) ->
  snd (bind (fetch r) k st) = fetched_state st r (snd (http r (world st))).
Proof.
  intros Hk. unfold bind, fetch.
  destruct (http r (world st)) as [[e|resp] w1]; [reflexivity|]. apply Hk.
Qed.

End Frames.

(** Splits a goal [keeps_state m] along the structure of [m]. *)
Ltac keeps :=
  repeat first
    [ apply keeps_ret | apply keeps_throw | apply keeps_lift | apply keeps_now
    | apply keeps_get_env
    | apply keeps_bind; [|intros ?]
    | apply keeps_try_catch; [|intros ?]
    | match goal with
      | |- keeps_state (if ?b then _ else _) => destruct b
      | |- keeps_state (match ?x with _ => _ end) => destruct x
      | |- keeps_state (let _ := _ in _) => cbv zeta
      end ].

(** ** One request per upstream, and nothing else touched *)

Section Traces.
Context {W : Type} `{Builtins} `{Upstream W}.

Lemma fetchFredLatest_without_key (st : state W) :
  env_set (FRED_API_KEY (env st)) = false ->
  fetchFredLatest st = (Return None, st).
Proof.
  intros Hkey. unfold fetchFredLatest. unfold bind at 1. unfold get_env.
  destruct (FRED_API_KEY (env st)) as [key|]; [|reflexivity].
  cbn in Hkey. apply negb_false_iff in Hkey. rewrite Hkey. reflexivity.
Qed.

(** With a credential, whatever the answer, [fetchFredLatest] ends in the
    state that its one [fetch] left. *)
Lemma fetchFredLatest_state (st : state W) (key : string) :
  FRED_API_KEY (env st) = Some key -> key <> "" ->
  snd (fetchFredLatest st)
  = fetched_state st (observations_request st key)
      (snd (http (observations_request st key) (world st))).
Proof.
  intros Hkey Hne. rewrite (fetchFredLatest_keyed st key Hkey Hne).
  unfold try_catch.
  match goal with
  | |- snd (match bind (fetch ?r) ?k st with _ => _ end) = _ =>
      pose proof (fetch_then_keeps r k st) as Hstate;
      destruct (bind (fetch r) k st) as [[a|e] st1]
  end; cbn [snd] in *; apply Hstate; intros resp; keeps.
Qed.

End Traces.

Section RateFootprint.
Context {W : Type} `{Builtins} `{Upstream W}.

(** X6: [handleRate] never changes [process.env] and leaves the whole state
    alone for every method but GET.  It sends at most one request, and only
    on a GET with a stale cache and the series credential set: that request
    is the observations request for the configured series. *)
Theorem handleRate_footprint (method : string) (st : state W) :
  env (snd (handleRate method st)) = env st
  /\ (method <> "GET" -> snd (handleRate method st) = st)
  /\ (requests (snd (handleRate method st)) = requests st
      \/ (method = "GET" /\ stale st
          /\ exists key,
               FRED_API_KEY (env st) = Some key /\ key <> ""
               /\ requests (snd (handleRate method st))
                  = (requests st ++ [observations_request st key])%list)).
Proof.
  destruct (String.eqb method "GET") eqn:Hget.
  - apply String.eqb_eq in Hget. subst method.
    destruct (fresh_entry (Date_now (world st)) (fredCache st)) as [c|] eqn:Hfresh.
    + rewrite (handleRate_hit st c Hfresh).
      split; [reflexivity|]. split; [intros _; reflexivity | left; reflexivity].
    + destruct (fetchFredLatest_returns st) as [data [st1 Hfetch]].
      rewrite (handleRate_miss st data st1 Hfresh Hfetch).
      cbn [snd with_cache env requests].
      destruct (env_set (FRED_API_KEY (env st))) eqn:Hset.
      * destruct (env_set_some _ Hset) as [key [Hkey Hne]].
        pose proof (fetchFredLatest_state st key Hkey Hne) as Hstate.
        rewrite Hfetch in Hstate. cbn [snd] in Hstate. subst st1.
        split; [reflexivity|].
        split; [intros Hno; contradiction Hno; reflexivity|].
        right. split; [reflexivity|].
        split; [apply stale_not_fresh; exact Hfresh|].
        exists key. repeat split; assumption.
      * rewrite (fetchFredLatest_without_key st Hset) in Hfetch.
        injection Hfetch as _ <-.
        split; [reflexivity|].
        split; [intros Hno; contradiction Hno; reflexivity | left; reflexivity].
  - assert (Hsame : snd (handleRate method st) = st).
    { unfold handleRate. rewrite Hget.
      destruct (String.eqb method "OPTIONS"); reflexivity. }
    rewrite Hsame.
    split; [reflexivity|]. split; [intros _; reflexivity | left; reflexivity].
Qed.

(** X7: after every GET the cache holds exactly the quote that was
    returned: on a hit the entry that was there, younger than one hour and
    left as it was with the rest of the state; on a miss (no entry, or one at
    least one hour old) a new entry stamped with the time read at the start
    of the call.  From any later state in which that entry is younger than
    one hour, a GET returns the same quote and leaves the state alone.  This
    holds for the fallback quote too: a failed fetch is not tried again
    while its entry is fresh. *)
Theorem returned_quote_is_cached (st : state W) :
  exists q c st',
    handleRate "GET" st
    = (Return {| status := 200;
                 cache_control := Some "public, max-age=3600";
                 body := QuoteJson q |}, st')
    /\ fredCache st' = Some c
    /\ payload c = q
    /\ ((fredCache st = Some c
         /\ (Date_now (world st) - ts c < 3600000)%Z
         /\ st' = st)
        \/ (expired st /\ ts c = Date_now (world st)))
    /\ forall st2,
         fredCache st2 = Some c ->
         (Date_now (world st2) - ts c < 3600000)%Z ->
         handleRate "GET" st2
         = (Return {| status := 200;
                      cache_control := Some "public, max-age=3600";
                      body := QuoteJson q |}, st2).
Proof.
  assert (Hagain : forall c st2,
             fredCache st2 = Some c ->
             (Date_now (world st2) - ts c < 3600000)%Z ->
             handleRate "GET" st2 = (Return (quote_reply (payload c)), st2)).
  { intros c st2 Hc Hyoung. apply handleRate_hit. rewrite Hc.
    apply fresh_entry_young. exact Hyoung. }
  destruct (fresh_entry (Date_now (world st)) (fredCache st)) as [c|] eqn:Hfresh.
  - exists (payload c), c, st. rewrite (handleRate_hit st c Hfresh).
    unfold fresh_entry in Hfresh.
    destruct (fredCache st) as [c0|] eqn:Hc; [|discriminate].
    destruct (Z.ltb_spec (Date_now (world st) - ts c0) TTL) as [Hyoung|];
      [|discriminate].
    injection Hfresh as ->. change TTL with 3600000%Z in Hyoung.
    split; [reflexivity|]. split; [reflexivity|]. split; [reflexivity|].
    split; [left; repeat split; assumption|].
    intros st2 Hc2 Hyoung2. apply (Hagain c st2 Hc2 Hyoung2).
  - destruct (fetchFredLatest_returns st) as [data [st1 Hfetch]].
    rewrite (handleRate_miss st data st1 Hfresh Hfetch).
    eexists _, _, _.
    split; [reflexivity|]. split; [reflexivity|]. split; [reflexivity|].
    split.
    + right. split; [|reflexivity].
      apply expired_stale, stale_not_fresh. exact Hfresh.
    + intros st2 Hc Hyoung. apply (Hagain _ st2 Hc Hyoung).
Qed.

End RateFootprint.

(** ** The subscribe handler, for every input *)

Section SubscribeFootprint.
Context {W : Type} `{Builtins} `{Upstream W}.

Lemma shown_not_empty (e : js_error) : shown e <> "".
Proof.
  unfold shown. destruct (String.eqb (message e) "") eqn:Hempty.
  - discriminate.
  - apply String.eqb_neq. exact Hempty.
Qed.

(** A POST either fails validation (400, or 500 when a check throws) with the
    state as it was, or reaches the create step. *)
Lemma handleSubscribe_post_cases (chunks : list string) (st : state W) :
  (exists why, handleSubscribe "POST" chunks st
               = (Return (plain 400 (ErrorJson why)), st))
  \/ (exists e, handleSubscribe "POST" chunks st
                = (Return (plain 500 (ErrorJson (shown e))), st))
  \/ (exists parsed email,
        parseJsonBody chunks st = (Return parsed, st)
        /\ get_prop parsed "email" = Return email
        /\ truthy email = true
        /\ js_includes email (JStr "@") = Return true
        /\ truthy (own_prop parsed "settlementId") = true
        /\ truthy (own_prop parsed "settlementName") = true).
Proof.
  destruct (parseJsonBody_returns chunks st) as [parsed Hparse].
  destruct (get_prop parsed "email") as [email|e] eqn:Hemail.
  2:{ right. left. exists e.
      unfold handleSubscribe. cbn [String.eqb Ascii.eqb Bool.eqb negb].
      unfold try_catch at 1. unfold bind at 1. rewrite Hparse.
      unfold bind at 1, lift at 1. rewrite Hemail. reflexivity. }
  destruct (truthy email) eqn:Htruthy.
  2:{ left. eexists.
      unfold handleSubscribe. cbn [String.eqb Ascii.eqb Bool.eqb negb].
      unfold try_catch at 1. unfold bind at 1. rewrite Hparse.
      unfold bind at 1, lift at 1. rewrite Hemail.
      unfold bind at 1. rewrite Htruthy. reflexivity. }
  destruct (js_includes email (JStr "@")) as [[|]|e] eqn:Hat.
  - destruct (truthy (own_prop parsed "settlementId")) eqn:Hid.
    + destruct (truthy (own_prop parsed "settlementName")) eqn:Hname.
      * right. right. exists parsed, email. repeat split; assumption.
      * left. eexists.
        unfold handleSubscribe. cbn [String.eqb Ascii.eqb Bool.eqb negb].
        unfold try_catch at 1. unfold bind at 1. rewrite Hparse.
        unfold bind at 1, lift at 1. rewrite Hemail.
        unfold bind at 1. rewrite Htruthy. cbn [negb].
        unfold bind at 1, lift at 1. rewrite Hat. unfold ret at 1. cbn [negb].
        rewrite Hid, Hname. reflexivity.
    + left. eexists.
      unfold handleSubscribe. cbn [String.eqb Ascii.eqb Bool.eqb negb].
      unfold try_catch at 1. unfold bind at 1. rewrite Hparse.
      unfold bind at 1, lift at 1. rewrite Hemail.
      unfold bind at 1. rewrite Htruthy. cbn [negb].
      unfold bind at 1, lift at 1. rewrite Hat. unfold ret at 1. cbn [negb].
      rewrite Hid. reflexivity.
  - left. eexists.
    unfold handleSubscribe. cbn [String.eqb Ascii.eqb Bool.eqb negb].
    unfold try_catch at 1. unfold bind at 1. rewrite Hparse.
    unfold bind at 1, lift at 1. rewrite Hemail.
    unfold bind at 1. rewrite Htruthy. cbn [negb].
    unfold bind at 1, lift at 1. rewrite Hat. reflexivity.
  - right. left. exists e.
    unfold handleSubscribe. cbn [String.eqb Ascii.eqb Bool.eqb negb].
    unfold try_catch at 1. unfold bind at 1. rewrite Hparse.
    unfold bind at 1, lift at 1. rewrite Hemail.
    unfold bind at 1. rewrite Htruthy. cbn [negb].
    unfold bind at 1, lift at 1. rewrite Hat. reflexivity.
Qed.


(** X8: [handleSubscribe] never throws: for every method, body and upstream
    behaviour it writes a reply, whose status is 200, 204, 400, 405 or 500;
    and a 500 reply always carries a non-empty error message. *)
Theorem handleSubscribe_always_replies (method : string) (chunks : list string)
    (st : state W) :
  exists r st',
    handleSubscribe method chunks st = (Return r, st')
    /\ In (status r) [200; 204; 400; 405; 500]%Z
    /\ (status r = 500%Z -> exists m, body r = ErrorJson m /\ m <> "").
Proof.
  assert (H500 : forall e (st' : state W), exists r st'',
             (Return (plain 500 (ErrorJson (shown e))), st') = (Return r, st'')
             /\ In (status r) [200; 204; 400; 405; 500]%Z
             /\ (status r = 500%Z -> exists m, body r = ErrorJson m /\ m <> "")).
  { intros e st'. eexists _, _. split; [reflexivity|]. split; [cbn; tauto|].
    intros _. eexists. split; [reflexivity | apply shown_not_empty]. }
  assert (H200 : forall m (st' : state W), exists r st'',
             (Return (plain 200 (SuccessJson m)), st') = (Return r, st'')
             /\ In (status r) [200; 204; 400; 405; 500]%Z
             /\ (status r = 500%Z -> exists m, body r = ErrorJson m /\ m <> "")).
  { intros m st'. eexists _, _. split; [reflexivity|]. split; [cbn; tauto|].
    cbn. discriminate. }
  destruct (String.eqb method "OPTIONS") eqn:Hoptions.
  { unfold handleSubscribe. rewrite Hoptions. eexists _, _.
    split; [reflexivity|]. split; [cbn; tauto | cbn; discriminate]. }
  destruct (String.eqb method "POST") eqn:Hpost.
  2:{ unfold handleSubscribe. rewrite Hoptions, Hpost. eexists _, _.
      split; [reflexivity|]. split; [cbn; tauto | cbn; discriminate]. }
  apply String.eqb_eq in Hpost. subst method.
  destruct (handleSubscribe_post_cases chunks st)
    as [[why Hreply] | [[e Hreply] | [parsed [email [Hparse [Hemail [Ht [Hat [Hid Hname]]]]]]]]].
  - rewrite Hreply. eexists _, _. split; [reflexivity|].
    split; [cbn; tauto | cbn; discriminate].
  - rewrite Hreply. apply H500.
  - rewrite (handleSubscribe_validated chunks st parsed email Hparse Hemail Ht Hat Hid Hname).
    destruct (subscribeToButtondown _ _ _ _ st) as [[v|e] st1]; [apply H200|].
    destruct (String_includes (message e) "already subscribed"); [|apply H500].
    unfold update_reply.
    destruct (updateButtondownSubscriber _ _ _ _ st1) as [[v|e2] st2];
      [apply H200 | apply H500].
Qed.

(** The update path, with the credential set: it keeps [process.env] and the
    cache, and adds nothing, the search, or the search and the patch. *)
Lemma update_footprint (st : state W) (email tag name deadline : js_value)
    (key : string) :
  BUTTONDOWN_API_KEY (env st) = Some key -> key <> "" ->
  exists w trace,
    snd (updateButtondownSubscriber email tag name deadline st)
    = {| world := w; env := env st; fredCache := fredCache st;
         requests := requests st ++ trace |}
    /\ (trace = []
        \/ (exists a, trace = [GetSubscribers key a])
        \/ (exists a i t m, trace = [GetSubscribers key a; PatchSubscriber key i t m])).
Proof.
  intros Hkey Hne. unfold updateButtondownSubscriber.
  unfold bind at 1. unfold get_env. rewrite Hkey, (string_eqb_false _ _ Hne).
  unfold bind at 1, lift at 1.
  destruct (ToString email) as [plain_address|e].
  2:{ exists (world st), []. split; [|left; reflexivity].
      cbn [snd]. rewrite app_nil_r. destruct st; reflexivity. }
  unfold bind at 1, lift at 1.
  destruct (encodeURIComponent plain_address) as [address|e].
  2:{ exists (world st), []. split; [|left; reflexivity].
      cbn [snd]. rewrite app_nil_r. destruct st; reflexivity. }
  unfold bind at 1. unfold fetch at 1.
  destruct (http (GetSubscribers key address) (world st)) as [[e|search] w1].
  { exists w1, [GetSubscribers key address]. split; [reflexivity|]. right. left. eauto. }
  assert (Hstop : forall (r : completion js_value),
             exists w trace,
               snd (r, fetched_state st (GetSubscribers key address) w1)
               = {| world := w; env := env st; fredCache := fredCache st;
                    requests := requests st ++ trace |}
               /\ (trace = []
                   \/ (exists a, trace = [GetSubscribers key a])
                   \/ (exists a i t m,
                         trace = [GetSubscribers key a; PatchSubscriber key i t m]))).
  { intros r. exists w1, [GetSubscribers key address]. split; [reflexivity|].
    right. left. eauto. }
  fold (fetched_state st (GetSubscribers key address) w1).
  destruct (ok search); cbn [negb]; [|apply Hstop].
  unfold bind at 1, lift at 1. destruct (json search) as [data|e]; [|apply Hstop].
  destruct (results data) as [[|sub rest]|]; [apply Hstop| |apply Hstop].
  unfold bind at 1, lift at 1. destruct (ToString tag) as [suffix|e]; [|apply Hstop].
  unfold bind at 1, now at 1.
  match goal with
  | |- context [bind (fetch ?r) ?k ?s] =>
      rewrite (fetch_then_keeps r k s) by (intros resp; keeps)
  end.
  eexists _, [GetSubscribers key address; PatchSubscriber key _ _ _].
  split; [|right; right; eauto].
  unfold fetched_state. cbn [env fredCache requests world].
  rewrite <- app_assoc. reflexivity.
Qed.

(** X9: whatever the method, the body and the upstream answers,
    [handleSubscribe] leaves [process.env] and the rate cache as they were,
    and the requests it adds are, in this order and each at most once, the
    create, the search and the patch, all sent with the configured
    credential; without a credential it sends nothing. *)
Theorem handleSubscribe_footprint (method : string) (chunks : list string)
    (st : state W) :
  exists trace,
    env (snd (handleSubscribe method chunks st)) = env st
    /\ fredCache (snd (handleSubscribe method chunks st)) = fredCache st
    /\ requests (snd (handleSubscribe method chunks st))
       = (requests st ++ trace)%list
    /\ (trace = []
        \/ exists key,
             BUTTONDOWN_API_KEY (env st) = Some key /\ key <> ""
             /\ subscribe_trace key trace).
Proof.
  assert (Hidle : snd (handleSubscribe method chunks st) = st ->
                  exists trace,
                    env (snd (handleSubscribe method chunks st)) = env st
                    /\ fredCache (snd (handleSubscribe method chunks st)) = fredCache st
                    /\ requests (snd (handleSubscribe method chunks st))
                       = (requests st ++ trace)%list
                    /\ (trace = []
                        \/ exists key,
                             BUTTONDOWN_API_KEY (env st) = Some key /\ key <> ""
                             /\ subscribe_trace key trace)).
  { intros ->. exists []. rewrite app_nil_r.
    split; [reflexivity|]. split; [reflexivity|]. split; [reflexivity|].
    left. reflexivity. }
  destruct (String.eqb method "OPTIONS") eqn:Hoptions.
  { apply Hidle. unfold handleSubscribe. rewrite Hoptions. reflexivity. }
  destruct (String.eqb method "POST") eqn:Hpost.
  2:{ apply Hidle. unfold handleSubscribe. rewrite Hoptions, Hpost. reflexivity. }
  apply String.eqb_eq in Hpost. subst method.
  destruct (handleSubscribe_post_cases chunks st)
    as [[why Hreply] | [[e Hreply] | [parsed [email [Hparse [Hemail [Ht [Hat [Hid Hname]]]]]]]]].
  - apply Hidle. rewrite Hreply. reflexivity.
  - apply Hidle. rewrite Hreply. reflexivity.
  - clear Hidle.
    rewrite (handleSubscribe_validated chunks st parsed email Hparse Hemail Ht Hat Hid Hname).
    destruct (env_set (BUTTONDOWN_API_KEY (env st))) eqn:Hset.
    2:{ rewrite (subscribe_without_key st _ _ _ _ Hset). cbn.
        exists []. rewrite app_nil_r.
        split; [reflexivity|]. split; [reflexivity|]. split; [reflexivity|].
        left. reflexivity. }
    destruct (env_set_some _ Hset) as [key [Hkey Hne]].
    pose proof (subscribe_state st email (own_prop parsed "settlementId")
                  (own_prop parsed "settlementName") (deadline_of parsed)
                  key Hkey Hne) as Hstate.
    cbv zeta in Hstate. unfold create_request in Hstate.
    destruct (subscribeToButtondown _ _ _ _ st) as [[v|e] st1]; cbn [snd] in Hstate.
    { eexists [PostSubscriber key _ _ _]. cbn [snd]. rewrite Hstate.
      split; [reflexivity|]. split; [reflexivity|]. split; [reflexivity|].
      right. exists key. split; [assumption|]. split; [assumption|]. constructor. }
    destruct (String_includes (message e) "already subscribed").
    2:{ eexists [PostSubscriber key _ _ _]. cbn [snd]. rewrite Hstate.
        split; [reflexivity|]. split; [reflexivity|]. split; [reflexivity|].
        right. exists key. split; [assumption|]. split; [assumption|]. constructor. }
    rewrite update_reply_state.
    assert (Hkey1 : BUTTONDOWN_API_KEY (env st1) = Some key)
      by (rewrite Hstate; exact Hkey).
    destruct (update_footprint st1 email (own_prop parsed "settlementId")
                (own_prop parsed "settlementName") (deadline_of parsed) key Hkey1 Hne)
      as [w2 [t2 [Hafter Hshape]]].
    eexists (PostSubscriber key _ _ _ :: t2).
    rewrite Hafter, Hstate. cbn [env fredCache requests fetched_state].
    rewrite <- app_assoc.
    split; [reflexivity|]. split; [reflexivity|]. split; [reflexivity|].
    right. exists key. split; [assumption|]. split; [assumption|].
    destruct Hshape as [-> | [[a ->] | [a [i [t [m ->]]]]]]; constructor.
Qed.

End SubscribeFootprint.

(** ** Failures of the create and update steps *)

Section SubscribeFailures.
Context {W : Type} `{Builtins} `{Upstream W}.

(** X10: with the mailing-list credential unset or empty, a valid
    subscription request is answered 500 with ["BUTTONDOWN_API_KEY not set"]
    and the state stays as it was: nothing is sent. *)
Theorem missing_credential_is_reported (chunks : list string) (st : state W)
    (parsed : js_value) (email tag name : string) :
  parseJsonBody chunks st = (Return parsed, st) ->
  subscription parsed email tag name ->
  env_set (BUTTONDOWN_API_KEY (env st)) = false ->
  handleSubscribe "POST" chunks st
  = (Return (plain 500 (ErrorJson "BUTTONDOWN_API_KEY not set")), st).
Proof.
  intros Hparse Hvalid Hset.
  rewrite (subscription_validated chunks st parsed email tag name Hparse Hvalid).
  rewrite (subscribe_without_key st _ _ _ _ Hset). reflexivity.
Qed.

(** The message a refused create ends with: [detail || code || text] of the
    parsed body, or the raw text when the body does not parse or is [null]. *)
Lemma subscribe_refused (st : state W) (email tag name deadline : js_value)
    (key : string) (resp : response js_value) (w1 : W) (t : string) :
  BUTTONDOWN_API_KEY (env st) = Some key -> key <> "" ->
  http (create_request key email tag name deadline (Date_now (world st))) (world st)
  = (Responded resp, w1) ->
  ok resp = false ->
  text resp = Return t ->
  subscribeToButtondown email tag name deadline st
  = (match
       match JSON_parse t with
       | Return e =>
           match get_prop e "detail" with
           | Return detail =>
               match get_prop e "code" with
               | Return code => ToString (js_or (js_or detail code) (JStr t))
               | Throw _ => Return t
               end
           | Throw _ => Return t
           end
       | Throw _ => Return t
       end
     with
     | Return m => Throw (Error m)
     | Throw e => Throw e
     end,
     fetched_state st
       (create_request key email tag name deadline (Date_now (world st))) w1).
Proof.
  intros Hkey Hne Hhttp Hok Htext. unfold create_request in *.
  unfold subscribeToButtondown.
  unfold bind at 1. unfold get_env. rewrite Hkey, (string_eqb_false _ _ Hne).
  unfold bind at 1, now at 1. unfold bind at 1. unfold fetch. rewrite Hhttp.
  cbv beta iota. cbn [json_of]. rewrite Hok. cbn [negb].
  unfold bind at 1, lift at 1. rewrite Htext.
  unfold bind at 1, try_catch at 1, bind at 1, lift at 1.
  destruct (JSON_parse t) as [parsed|e].
  - unfold bind at 1, lift at 1.
    destruct (get_prop parsed "detail") as [detail|e].
    + unfold bind at 1, lift at 1.
      destruct (get_prop parsed "code") as [code|e]; unfold ret at 1.
      * unfold bind at 1, lift at 1. destruct (ToString _); reflexivity.
      * unfold bind at 1, lift at 1. reflexivity.
    + unfold ret at 1. unfold bind at 1, lift at 1. reflexivity.
  - unfold ret at 1. unfold bind at 1, lift at 1. reflexivity.
Qed.

(** X11: when the upstream refuses the create with body text [t], the
    failure message is [t] itself if [t] is not JSON; otherwise the [detail]
    of the parsed body if that is a non-empty string; otherwise, [detail]
    being falsy, its [code] if that is a non-empty string; and [t] again when
    both are falsy (the body [null] included). *)
Theorem create_failure_message (st : state W) (email tag name deadline : js_value)
    (key : string) (resp : response js_value) (w1 : W) (t : string) :
  BUTTONDOWN_API_KEY (env st) = Some key -> key <> "" ->
  http (create_request key email tag name deadline (Date_now (world st))) (world st)
  = (Responded resp, w1) ->
  ok resp = false ->
  text resp = Return t ->
  let failed_with (m : string) :=
    fst (subscribeToButtondown email tag name deadline st) = Throw (Error m) in
  ((exists e, JSON_parse t = Throw e) -> failed_with t)
  /\ (forall body d,
        JSON_parse t = Return body -> own_prop body "detail" = JStr d -> d <> "" ->
        failed_with d)
  /\ (forall body c,
        JSON_parse t = Return body -> truthy (own_prop body "detail") = false ->
        own_prop body "code" = JStr c -> c <> "" ->
        failed_with c)
  /\ (forall body,
        JSON_parse t = Return body -> truthy (own_prop body "detail") = false ->
        truthy (own_prop body "code") = false ->
        failed_with t).
Proof.
  intros Hkey Hne Hhttp Hok Htext failed_with. subst failed_with. cbv beta.
  rewrite (subscribe_refused st email tag name deadline key resp w1 t
             Hkey Hne Hhttp Hok Htext). cbn [fst].
  repeat split.
  - intros [e ->]. reflexivity.
  - intros body d -> Hdetail Hd.
    assert (Hobj : truthy body = true)
      by (destruct body; cbn in Hdetail; try discriminate; reflexivity).
    rewrite !(own_prop_get body _ Hobj), Hdetail.
    assert (Htruthy : truthy (JStr d) = true)
      by (cbn; rewrite (string_eqb_false _ _ Hd); reflexivity).
    unfold js_or. rewrite !Htruthy. reflexivity.
  - intros body c -> Hdetail Hcode Hc.
    assert (Hobj : truthy body = true)
      by (destruct body; cbn in Hcode; try discriminate; reflexivity).
    rewrite !(own_prop_get body _ Hobj), Hcode.
    assert (Htruthy : truthy (JStr c) = true)
      by (cbn; rewrite (string_eqb_false _ _ Hc); reflexivity).
    unfold js_or. rewrite Hdetail, Htruthy. reflexivity.
  - intros body -> Hdetail Hcode.
    destruct body; try reflexivity;
      cbn [get_prop]; unfold js_or; rewrite Hdetail, Hcode; reflexivity.
Qed.

(** What the create step gives, by the answer to its request. *)
Lemma subscribe_answered (st : state W) (email tag name deadline : js_value)
    (key : string) :
  BUTTONDOWN_API_KEY (env st) = Some key -> key <> "" ->
  let create := create_request key email tag name deadline (Date_now (world st)) in
  (forall e w1,
     http create (world st) = (Rejected e, w1) ->
     fst (subscribeToButtondown email tag name deadline st) = Throw e)
  /\ (forall (resp : response js_value) w1,
        http create (world st) = (Responded resp, w1) -> ok resp = true ->
        fst (subscribeToButtondown email tag name deadline st) = json resp)
  /\ (forall (resp : response js_value) w1,
        http create (world st) = (Responded resp, w1) -> ok resp = false ->
        exists e, fst (subscribeToButtondown email tag name deadline st) = Throw e).
Proof.
  intros Hkey Hne create. subst create.
  assert (Hopen : subscribeToButtondown email tag name deadline st
                  = bind (fetch (create_request key email tag name deadline
                                   (Date_now (world st))))
                      (fun resp =>
                         if negb (ok resp) then
                           bind (lift (text resp)) (fun text =>
                           bind (try_catch
                                   (bind (lift (JSON_parse text)) (fun e =>
                                    bind (lift (get_prop e "detail")) (fun detail =>
                                    bind (lift (get_prop e "code")) (fun code =>
                                    ret (js_or (js_or detail code) (JStr text))))))
                                   (fun _ => ret (JStr text))) (fun msg =>
                           bind (lift (ToString msg)) (fun m => throw (Error m))))
                         else lift (json resp)) st).
  { unfold subscribeToButtondown. unfold bind at 1. unfold get_env.
    rewrite Hkey, (string_eqb_false _ _ Hne). reflexivity. }
  repeat split.
  - intros e w1 Hhttp. rewrite Hopen. unfold bind at 1.
    rewrite (fetch_rejected_throws st (create_request key email tag name deadline
                                        (Date_now (world st))) e w1 Hhttp).
    reflexivity.
  - intros resp w1 Hhttp Hok. rewrite Hopen. unfold bind at 1.
    rewrite (fetch_responded st (create_request key email tag name deadline
                                   (Date_now (world st))) resp w1 Hhttp).
    cbn [json_of create_request]. rewrite Hok. reflexivity.
  - intros resp w1 Hhttp Hok.
    destruct (text resp) as [t|e] eqn:Htext.
    + rewrite (subscribe_refused st email tag name deadline key resp w1 t
                 Hkey Hne Hhttp Hok Htext). cbn [fst].
      destruct (match JSON_parse t with Return _ => _ | Throw _ => _ end); eauto.
    + exists e. rewrite Hopen. unfold bind at 1.
      rewrite (fetch_responded st (create_request key email tag name deadline
                                   (Date_now (world st))) resp w1 Hhttp).
      cbn [json_of create_request]. rewrite Hok. cbn [negb].
      unfold bind at 1, lift at 1. rewrite Htext. reflexivity.
Qed.

(** X12: for a valid subscription request with the credential set, the
    handler answers 200 with the "subscribed" message exactly when the create
    request was answered with a success status and a body that parses as
    JSON.  In particular a success status with an unreadable body is not
    reported as a new subscription. *)
Theorem created_reply_iff (chunks : list string) (st : state W)
    (parsed : js_value) (email tag name key : string) :
  parseJsonBody chunks st = (Return parsed, st) ->
  subscription parsed email tag name ->
  BUTTONDOWN_API_KEY (env st) = Some key -> key <> "" ->
  fst (handleSubscribe "POST" chunks st)
  = Return (plain 200 (SuccessJson created_message))
  <-> exists resp w1 v,
        http (create_request key (JStr email) (JStr tag) (JStr name)
                (deadline_of parsed) (Date_now (world st))) (world st)
        = (Responded resp, w1)
        /\ ok resp = true /\ json resp = Return v.
Proof.
  intros Hparse Hvalid Hkey Hne.
  rewrite (subscription_validated chunks st parsed email tag name Hparse Hvalid).
  destruct (subscribe_answered st (JStr email) (JStr tag) (JStr name)
              (deadline_of parsed) key Hkey Hne) as [Hrejected [Haccepted Hrefused]].
  assert (Hnot : forall (r : completion js_value * state W),
             fst (update_reply r) <> Return (plain 200 (SuccessJson created_message))).
  { intros [[v|e] s]; cbn; intros Heq; discriminate Heq. }
  assert (Hthrown : forall e st1,
             subscribeToButtondown (JStr email) (JStr tag) (JStr name)
               (deadline_of parsed) st = (Throw e, st1) ->
             fst (if String_includes (message e) "already subscribed"
                  then update_reply
                         (updateButtondownSubscriber (JStr email) (JStr tag)
                            (JStr name) (deadline_of parsed) st1)
                  else (Return (plain 500 (ErrorJson (shown e))), st1))
             <> Return (plain 200 (SuccessJson created_message))).
  { intros e st1 _. destruct (String_includes (message e) "already subscribed");
      [apply Hnot | discriminate]. }
  destruct (subscribeToButtondown (JStr email) (JStr tag) (JStr name)
              (deadline_of parsed) st) as [[v|e] st1] eqn:Hrun; cbn [fst] in *.
  - split; [intros _ | reflexivity].
    destruct (http _ (world st)) as [[e|resp] w1] eqn:Hhttp.
    + specialize (Hrejected e w1 eq_refl). discriminate.
    + destruct (ok resp) eqn:Hok.
      * exists resp, w1, v. split; [reflexivity|]. split; [exact Hok|].
        symmetry. exact (Haccepted resp w1 eq_refl Hok).
      * destruct (Hrefused resp w1 eq_refl Hok) as [e He]. discriminate.
  - split.
    + intros Hreply. exfalso. exact (Hthrown e st1 eq_refl Hreply).
    + intros [resp [w1 [v [Hhttp [Hok Hjson]]]]].
      pose proof (eq_trans (Haccepted resp w1 Hhttp Hok) Hjson) as Habsurd.
      discriminate Habsurd.
Qed.

(** After a create that failed with the indicator, the credential is set and
    the state is the one the create request left. *)
Lemma after_duplicate (st st1 : state W) (email tag name deadline : js_value)
    (err : js_error) :
  subscribeToButtondown email tag name deadline st = (Throw err, st1) ->
  String_includes (message err) "already subscribed" = true ->
  exists key, BUTTONDOWN_API_KEY (env st1) = Some key /\ key <> ""
              /\ BUTTONDOWN_API_KEY (env st) = Some key.
Proof.
  intros Hthrow Hinc.
  destruct (indicator_needs_key st st1 _ _ _ _ err Hthrow Hinc) as [key [Hkey Hne]].
  exists key. repeat split; try assumption.
  pose proof (subscribe_state st email tag name deadline key Hkey Hne) as Hstate.
  rewrite Hthrow in Hstate. cbn [snd] in Hstate. rewrite Hstate. exact Hkey.
Qed.

(** X13: when the create fails with the "already subscribed" indicator and
    the search for the encoded email is answered with a status that is not a
    success, the handler answers 500 with ["Failed to find subscriber"],
    whatever the body of that answer, and the search is the last request
    made. *)
Theorem refused_search_is_reported (chunks : list string) (st st1 : state W)
    (parsed : js_value) (email encoded tag name key : string) (err : js_error)
    (search : response search_data) (w2 : W) :
  parseJsonBody chunks st = (Return parsed, st) ->
  subscription parsed email tag name ->
  BUTTONDOWN_API_KEY (env st) = Some key ->
  subscribeToButtondown (JStr email) (JStr tag) (JStr name) (deadline_of parsed) st
  = (Throw err, st1) ->
  String_includes (message err) "already subscribed" = true ->
  encodeURIComponent email = Return encoded ->
  http (search_request key encoded) (world st1) = (Responded search, w2) ->
  ok search = false ->
  handleSubscribe "POST" chunks st
  = (Return (plain 500 (ErrorJson "Failed to find subscriber")),
     fetched_state st1 (search_request key encoded) w2).
Proof.
  intros Hparse Hvalid Hkey Hthrow Hinc Hencoded Hhttp Hok.
  rewrite (subscription_validated chunks st parsed email tag name Hparse Hvalid).
  rewrite Hthrow, Hinc.
  destruct (after_duplicate st st1 _ _ _ _ err Hthrow Hinc) as [key' [Hkey1 [Hne Hkey']]].
  assert (key' = key) by congruence. subst key'.
  rewrite (update_unfolded st1 (JStr email) (JStr name) (deadline_of parsed)
             email encoded tag key Hkey1 Hne eq_refl Hencoded).
  rewrite Hhttp. cbv beta iota zeta. cbn [json_of search_request].
  rewrite Hok. reflexivity.
Qed.

(** X14: when the create fails with the indicator, the search for the
    encoded email finds the subscriber and the patch is answered with a
    status that is not a success and body text [t], the handler answers 500
    with [t] as its message (the generic message when [t] is empty), and the
    patch is the last request made. *)
Theorem refused_patch_is_reported (chunks : list string) (st st1 : state W)
    (parsed : js_value) (email encoded tag name key : string) (err : js_error)
    (search : response search_data) (w2 : W) (data : search_data)
    (sub : subscriber) (others : list subscriber)
    (upd : response js_value) (w3 : W) (t : string) :
  parseJsonBody chunks st = (Return parsed, st) ->
  subscription parsed email tag name ->
  BUTTONDOWN_API_KEY (env st) = Some key ->
  subscribeToButtondown (JStr email) (JStr tag) (JStr name) (deadline_of parsed) st
  = (Throw err, st1) ->
  String_includes (message err) "already subscribed" = true ->
  encodeURIComponent email = Return encoded ->
  http (search_request key encoded) (world st1) = (Responded search, w2) ->
  ok search = true ->
  json search = Return data ->
  results data = Some (sub :: others) ->
  http (patch_request key sub tag (JStr name) (deadline_of parsed) (Date_now w2)) w2
  = (Responded upd, w3) ->
  ok upd = false ->
  text upd = Return t ->
  handleSubscribe "POST" chunks st
  = (Return (plain 500
               (ErrorJson (if String.eqb t ""
                           then "Failed to subscribe. Please try again." else t))),
     fetched_state (fetched_state st1 (search_request key encoded) w2)
       (patch_request key sub tag (JStr name) (deadline_of parsed) (Date_now w2)) w3).
Proof.
  intros Hparse Hvalid Hkey Hthrow Hinc Hencoded Hhttp Hok Hjson Hresults
         Hpatch Hrefused Htext.
  rewrite (subscription_validated chunks st parsed email tag name Hparse Hvalid).
  rewrite Hthrow, Hinc.
  destruct (after_duplicate st st1 _ _ _ _ err Hthrow Hinc) as [key' [Hkey1 [Hne Hkey']]].
  assert (key' = key) by congruence. subst key'.
  rewrite (update_unfolded st1 (JStr email) (JStr name) (deadline_of parsed)
             email encoded tag key Hkey1 Hne eq_refl Hencoded).
  rewrite Hhttp. cbv beta iota zeta. cbn [json_of search_request].
  rewrite Hok, Hjson, Hresults. cbn [negb].
  rewrite Hpatch. cbv beta iota. cbn [json_of patch_request].
  rewrite Hrefused, Htext. reflexivity.
Qed.

(** X21: when the create fails with the indicator and the email cannot be
    encoded for the search URL ([encodeURIComponent] throws on a lone
    surrogate), the update path stops before it sends anything: the handler
    answers 500 with the message of that error, and the create stays the
    last request made. *)
Theorem malformed_email_is_server_error (chunks : list string) (st st1 : state W)
    (parsed : js_value) (email tag name : string) (err malformed : js_error) :
  parseJsonBody chunks st = (Return parsed, st) ->
  subscription parsed email tag name ->
  subscribeToButtondown (JStr email) (JStr tag) (JStr name) (deadline_of parsed) st
  = (Throw err, st1) ->
  String_includes (message err) "already subscribed" = true ->
  encodeURIComponent email = Throw malformed ->
  handleSubscribe "POST" chunks st
  = (Return {| status := 500; cache_control := None;
               body := ErrorJson (if String.eqb (message malformed) ""
                                  then "Failed to subscribe. Please try again."
                                  else message malformed) |}, st1).
Proof.
  intros Hparse Hvalid Hthrow Hinc Hmalformed.
  rewrite (subscription_validated chunks st parsed email tag name Hparse Hvalid).
  rewrite Hthrow, Hinc.
  destruct (after_duplicate st st1 _ _ _ _ err Hthrow Hinc) as [key [Hkey1 [Hne _]]].
  rewrite (update_malformed st1 (JStr email) (JStr tag) (JStr name)
             (deadline_of parsed) email key malformed Hkey1 Hne eq_refl Hmalformed).
  reflexivity.
Qed.

(** X15: the check [email.includes('@')] is also passed by an array that has
    the element ['@']: with truthy settlement id and name and the credential
    set, the create request is sent with that array as the email address. *)
Theorem array_email_passes_validation (chunks : list string) (st : state W)
    (parsed : js_value) (items : list js_value) (key : string) :
  parseJsonBody chunks st = (Return parsed, st) ->
  own_prop parsed "email" = JArr items ->
  In (JStr "@") items ->
  truthy (own_prop parsed "settlementId") = true ->
  truthy (own_prop parsed "settlementName") = true ->
  BUTTONDOWN_API_KEY (env st) = Some key -> key <> "" ->
  exists rest,
    requests (snd (handleSubscribe "POST" chunks st))
    = (requests st
       ++ create_request key (JArr items) (own_prop parsed "settlementId")
            (own_prop parsed "settlementName") (deadline_of parsed)
            (Date_now (world st)) :: rest)%list.
Proof.
  intros Hparse Hemail Hat Hid Hname Hkey Hne.
  assert (Hobj : truthy parsed = true)
    by (destruct parsed; cbn in Hemail; try discriminate; reflexivity).
  assert (Hfound : js_includes (JArr items) (JStr "@") = Return true).
  { cbn [js_includes]. f_equal. apply existsb_exists.
    exists (JStr "@"). split; [exact Hat | reflexivity]. }
  rewrite (handleSubscribe_validated chunks st parsed (JArr items) Hparse).
  2:{ rewrite (own_prop_get _ _ Hobj), Hemail. reflexivity. }
  2:{ reflexivity. }
  2:{ exact Hfound. }
  2:{ exact Hid. }
  2:{ exact Hname. }
  pose proof (subscribe_state st (JArr items) (own_prop parsed "settlementId")
                (own_prop parsed "settlementName") (deadline_of parsed)
                key Hkey Hne) as Hstate.
  cbv zeta in Hstate.
  destruct (subscribeToButtondown _ _ _ _ st) as [[v|err] st1]; cbn [snd] in Hstate.
  - exists []. rewrite Hstate. reflexivity.
  - destruct (String_includes (message err) "already subscribed").
    + rewrite update_reply_state.
      assert (Hkey1 : BUTTONDOWN_API_KEY (env st1) = Some key)
        by (rewrite Hstate; exact Hkey).
      destruct (update_footprint st1 (JArr items) (own_prop parsed "settlementId")
                  (own_prop parsed "settlementName") (deadline_of parsed) key Hkey1 Hne)
        as [w2 [t2 [Hafter _]]].
      exists t2. rewrite Hafter, Hstate. cbn [requests fetched_state].
      rewrite <- app_assoc. reflexivity.
    + exists []. rewrite Hstate. reflexivity.
Qed.

Lemma same_value_zero_refl (v : js_value) :
  primitive v = true -> same_value_zero v v = true.
Proof.
  destruct v as [| |b|x|s|items|props]; cbn; try reflexivity; try discriminate; intros _.
  - destruct b; reflexivity.
  - unfold is_nan. destruct (PrimFloat.eqb x x); reflexivity.
  - apply String.eqb_refl.
Qed.

(** X16: merging a tag keeps the existing tags in their order and adds at
    most the tag itself, at the end, whatever the values are; and for a tag
    that is not an array or an object, merging it a second time changes
    nothing. *)
Theorem updatedTags_appends_once (present : option (list js_value))
    (tag : js_value) :
  (exists added,
     updatedTags present tag = (default [] present ++ added)%list
     /\ (added = [] \/ added = [tag]))
  /\ (primitive tag = true ->
      updatedTags (Some (updatedTags present tag)) tag = updatedTags present tag).
Proof.
  split.
  - unfold updatedTags. destruct (existsb _ (default [] present)).
    + exists []. rewrite app_nil_r. split; [reflexivity | left; reflexivity].
    + exists [tag]. split; [reflexivity | right; reflexivity].
  - intros Hprim.
    assert (Hin : existsb (fun x => same_value_zero x tag) (updatedTags present tag)
                  = true).
    { unfold updatedTags.
      destruct (existsb _ (default [] present)) eqn:Hfound; [exact Hfound|].
      rewrite existsb_app. cbn. rewrite (same_value_zero_refl tag Hprim).
      apply orb_true_iff. right. reflexivity. }
    unfold updatedTags at 1. cbn [default from_option id]. rewrite Hin. reflexivity.
Qed.

End SubscribeFailures.

(** ** The dispatcher and the static files *)

Section DispatchProperties.
Context {W : Type} `{Builtins} `{Upstream W} `{Platform W}.


(** For a pathname that is neither API path, the server is [serveStatic]
    followed by the 404 answer. *)
Lemma server_static (req : incoming) (st : state W) (url pathname : string) :
  req_url req = Some url -> url <> "" ->
  URL_pathname url (url_base req) = Return pathname ->
  pathname <> "/api/rate" -> pathname <> "/api/subscribe" ->
  server req st
  = (Return (match fst (serveStatic (req_method req) pathname st) with
             | Return (Some f) => f
             | _ => Text 404 "Not Found"
             end), st).
Proof.
  intros Hurl Hne Hpath Hrate Hsubscribe. unfold server.
  rewrite Hurl, (string_eqb_false _ _ Hne).
  unfold bind at 1, lift at 1. rewrite Hpath.
  rewrite (string_eqb_false _ _ Hrate), (string_eqb_false _ _ Hsubscribe).
  unfold bind at 1. unfold serveStatic.
  destruct (negb (String.eqb (req_method req) "GET")); [reflexivity|].
  destruct (String.eqb pathname "/" || String.eqb pathname "/index.html").
  - destruct (fs_existsSync (world st) _); [reflexivity|].
    destruct (starts_with "/assets/" pathname); [|reflexivity].
    destruct (fs_existsSync (world st) _ && fs_isFile (world st) _); reflexivity.
  - destruct (starts_with "/assets/" pathname); [|reflexivity].
    destruct (fs_existsSync (world st) _ && fs_isFile (world st) _); reflexivity.
Qed.

Ltac asset_case pathname st :=
  let Hf := fresh "Hf" in
  destruct (starts_with "/assets/" pathname);
    [|intros Hf; discriminate Hf];
  destruct (fs_existsSync (world st) (path_join script_dirname (slice1 pathname)));
    cbn [andb]; [|intros Hf; discriminate Hf];
  destruct (fs_isFile (world st) (path_join script_dirname (slice1 pathname)));
    [|intros Hf; discriminate Hf];
  cbn [fst]; intros Hf; injection Hf as <-; right; repeat split.

(** What [serveStatic] writes, when it writes. *)
Lemma serveStatic_writes (method pathname : string) (st : state W) (f : served) :
  fst (serveStatic method pathname st) = Return (Some f) ->
  method = "GET"
  /\ (((pathname = "/" \/ pathname = "/index.html")
       /\ fs_existsSync (world st) (path_join ASSETS_DIR "mortgage-calculator.html")
          = true
       /\ f = FileStream "text/html" false
                (path_join ASSETS_DIR "mortgage-calculator.html"))
      \/ (starts_with "/assets/" pathname = true
          /\ fs_existsSync (world st) (path_join script_dirname (slice1 pathname))
             = true
          /\ fs_isFile (world st) (path_join script_dirname (slice1 pathname)) = true
          /\ f = FileStream
                   (content_type_of
                      (String_toLowerCase
                         (path_extname (path_join script_dirname (slice1 pathname)))))
                   true (path_join script_dirname (slice1 pathname)))).
Proof.
  unfold serveStatic.
  destruct (String.eqb method "GET") eqn:Hget; cbn [negb];
    [|intros Hf; discriminate Hf].
  apply String.eqb_eq in Hget. intros Hwritten. split; [exact Hget|].
  revert Hwritten.
  destruct (String.eqb pathname "/" || String.eqb pathname "/index.html") eqn:Hindex;
    cbv beta iota zeta.
  - destruct (fs_existsSync (world st) (path_join ASSETS_DIR _)) eqn:Hexists;
      cbv beta iota zeta.
    + cbn [fst]. intros Heq. injection Heq as <-. left.
      split; [|split; reflexivity].
      apply orb_true_iff in Hindex as [Hroot | Hroot];
        apply String.eqb_eq in Hroot; auto.
    + asset_case pathname st.
  - asset_case pathname st.
Qed.

(** X17: a request whose pathname is neither [/api/rate] nor
    [/api/subscribe] never reaches a handler: the state (cache, requests
    made) stays as it was, and the answer is a file or the 404 text; for a
    method other than GET it is always the 404 text. *)
Theorem static_paths_stay_local (req : incoming) (st : state W)
    (url pathname : string) :
  req_url req = Some url -> url <> "" ->
  URL_pathname url (url_base req) = Return pathname ->
  pathname <> "/api/rate" -> pathname <> "/api/subscribe" ->
  exists out,
    server req st = (Return out, st)
    /\ (out = Text 404 "Not Found" \/ exists ct cors p, out = FileStream ct cors p)
    /\ (req_method req <> "GET" -> out = Text 404 "Not Found").
Proof.
  intros Hurl Hne Hpath Hrate Hsubscribe.
  rewrite (server_static req st url pathname Hurl Hne Hpath Hrate Hsubscribe).
  eexists. split; [reflexivity|].
  destruct (fst (serveStatic (req_method req) pathname st)) as [[f|]|e] eqn:Hstatic.
  - destruct (serveStatic_writes _ _ _ _ Hstatic)
      as [Hget [[_ [_ ->]] | [_ [_ [_ ->]]]]];
      (split; [right; eauto | intros Hno; contradiction]).
  - split; [left; reflexivity | intros _; reflexivity].
  - split; [left; reflexivity | intros _; reflexivity].
Qed.

(** X18: whenever the server answers with a file, the request was a GET, no
    handler ran (the state is as it was), and the file exists: it is either
    the index page, for the pathname [/] or [/index.html], sent as
    [text/html]; or, for a pathname under [/assets/], the regular file at
    [path.join(__dirname, pathname.slice(1))], sent with the CORS header and
    the content type chosen from its lowercased extension. *)
Theorem served_file_exists (req : incoming) (st st' : state W)
    (ct : string) (cors : bool) (p : string) :
  server req st = (Return (FileStream ct cors p), st') ->
  st' = st
  /\ req_method req = "GET"
  /\ fs_existsSync (world st) p = true
  /\ exists url pathname,
       req_url req = Some url
       /\ URL_pathname url (url_base req) = Return pathname
       /\ (((pathname = "/" \/ pathname = "/index.html")
            /\ p = path_join ASSETS_DIR "mortgage-calculator.html"
            /\ ct = "text/html" /\ cors = false)
           \/ (starts_with "/assets/" pathname = true
               /\ p = path_join script_dirname (slice1 pathname)
               /\ fs_isFile (world st) p = true
               /\ cors = true
               /\ ct = content_type_of (String_toLowerCase (path_extname p)))).
Proof.
  intros Hserved.
  destruct (req_url req) as [url|] eqn:Hurl.
  2:{ unfold server in Hserved. rewrite Hurl in Hserved. discriminate Hserved. }
  destruct (String.eqb url "") eqn:Hempty.
  { unfold server in Hserved. rewrite Hurl, Hempty in Hserved. discriminate Hserved. }
  apply String.eqb_neq in Hempty.
  destruct (URL_pathname url (url_base req)) as [pathname|e] eqn:Hpath.
  2:{ unfold server in Hserved. rewrite Hurl, (string_eqb_false _ _ Hempty) in Hserved.
      unfold bind at 1, lift at 1 in Hserved. rewrite Hpath in Hserved.
      discriminate Hserved. }
  destruct (String.eqb pathname "/api/rate") eqn:Hrate.
  { unfold server in Hserved. rewrite Hurl, (string_eqb_false _ _ Hempty) in Hserved.
    unfold bind at 1, lift at 1 in Hserved. rewrite Hpath, Hrate in Hserved.
    unfold bind in Hserved.
    destruct (handleRate (req_method req) st) as [[r|e] s]; discriminate Hserved. }
  destruct (String.eqb pathname "/api/subscribe") eqn:Hsubscribe.
  { unfold server in Hserved. rewrite Hurl, (string_eqb_false _ _ Hempty) in Hserved.
    unfold bind at 1, lift at 1 in Hserved. rewrite Hpath, Hrate, Hsubscribe in Hserved.
    unfold bind in Hserved.
    destruct (handleSubscribe (req_method req) (req_chunks req) st) as [[r|e] s];
      discriminate Hserved. }
  apply String.eqb_neq in Hrate, Hsubscribe.
  rewrite (server_static req st url pathname Hurl Hempty Hpath Hrate Hsubscribe)
    in Hserved.
  injection Hserved as Hout <-.
  destruct (fst (serveStatic (req_method req) pathname st)) as [[f|]|e] eqn:Hstatic;
    try discriminate Hout.
  subst f.
  destruct (serveStatic_writes _ _ _ _ Hstatic)
    as [Hget [[Hindex [Hexists Hfile]] | [Hunder [Hexists [Hregular Hfile]]]]];
    injection Hfile as -> -> ->.
  - split; [reflexivity|]. split; [exact Hget|]. split; [exact Hexists|].
    exists url, pathname. split; [reflexivity|]. split; [exact Hpath|].
    left. repeat split; assumption.
  - split; [reflexivity|]. split; [exact Hget|]. split; [exact Hexists|].
    exists url, pathname. split; [reflexivity|]. split; [exact Hpath|].
    right. repeat split; assumption.
Qed.


End DispatchProperties.

(** ** The further properties at sample inputs *)

(** X10 with no credential in the environment. *)
Lemma missing_credential_is_reported_witness :
  handleSubscribe "POST" [sample_text "user@x.com" "tagA"] (unconfigured empty_list)
  = (Return (plain 500 (ErrorJson "BUTTONDOWN_API_KEY not set")),
     unconfigured empty_list).
Proof.
  refine (missing_credential_is_reported [sample_text "user@x.com" "tagA"]
            (unconfigured empty_list) (sample_body "user@x.com" "tagA")
            "user@x.com" "tagA" "Name" _ _ _).
  - reflexivity.
  - apply sample_subscription. discriminate.
  - reflexivity.
Defined.

(** X11 at [lost_script]: the refusal text is not JSON and becomes the
    message. *)
Lemma create_failure_message_witness :
  fst (subscribeToButtondown (JStr "user@x.com") (JStr "tagA") (JStr "Name") JNull
         (boot lost_script))
  = Throw (Error "That email address is already subscribed.").
Proof.
  refine (proj1 (create_failure_message (boot lost_script) (JStr "user@x.com")
                   (JStr "tagA") (JStr "Name") JNull "bd-key"
                   (refused "That email address is already subscribed.")
                   {| script_clock := 1736000000001;
                      pending := [Search (Responded (found []))] |}
                   "That email address is already subscribed." _ _ _ _ _) _).
  - reflexivity.
  - discriminate.
  - reflexivity.
  - reflexivity.
  - reflexivity.
  - exists (Error "Unexpected token in JSON"). reflexivity.
Defined.

(** X12 at [open_script]: the create is accepted with the body [{}]. *)
Lemma created_reply_iff_witness :
  fst (handleSubscribe "POST" [sample_text "user@x.com" "tagA"] (boot open_script))
  = Return (plain 200 (SuccessJson created_message)).
Proof.
  refine (proj2 (created_reply_iff [sample_text "user@x.com" "tagA"]
                   (boot open_script) (sample_body "user@x.com" "tagA")
                   "user@x.com" "tagA" "Name" "bd-key" _ _ _ _) _).
  - reflexivity.
  - apply sample_subscription. discriminate.
  - reflexivity.
  - discriminate.
  - exists accepted, {| script_clock := 1736000000001; pending := [] |}, (JObj []).
    repeat split.
Defined.

(** X13 at [closed_script]. *)
Lemma refused_search_is_reported_witness :
  fst (handleSubscribe "POST" [sample_text "user@x.com" "tagA"] (boot closed_script))
  = Return (plain 500 (ErrorJson "Failed to find subscriber")).
Proof.
  refine (f_equal fst
            (refused_search_is_reported [sample_text "user@x.com" "tagA"]
               (boot closed_script)
               (snd (subscribeToButtondown (JStr "user@x.com") (JStr "tagA")
                       (JStr "Name") JNull (boot closed_script)))
               (sample_body "user@x.com" "tagA") "user@x.com" "user%40x.com"
               "tagA" "Name" "bd-key"
               (Error "That email address is already subscribed.")
               {| ok := false; text := Return "Forbidden";
                  json := Return {| results := None |} |}
               {| script_clock := 1736000000002; pending := [] |}
               _ _ _ _ _ _ _ _)).
  - reflexivity.
  - apply sample_subscription. discriminate.
  - reflexivity.
  - reflexivity.
  - reflexivity.
  - reflexivity.
  - reflexivity.
  - reflexivity.
Defined.

(** X14 at [frozen_script]: the patch is refused with an empty body. *)
Lemma refused_patch_is_reported_witness :
  fst (handleSubscribe "POST" [sample_text "user@x.com" "tagB"] (boot frozen_script))
  = Return (plain 500 (ErrorJson "Failed to subscribe. Please try again.")).
Proof.
  refine (f_equal fst
            (refused_patch_is_reported [sample_text "user@x.com" "tagB"]
               (boot frozen_script)
               (snd (subscribeToButtondown (JStr "user@x.com") (JStr "tagB")
                       (JStr "Name") JNull (boot frozen_script)))
               (sample_body "user@x.com" "tagB") "user@x.com" "user%40x.com"
               "tagB" "Name" "bd-key"
               (Error "That email address is already subscribed.")
               (found [known_subscriber])
               {| script_clock := 1736000000002;
                  pending := [Plain (Responded (refused ""))] |}
               {| results := Some [known_subscriber] |}
               known_subscriber [] (refused "")
               {| script_clock := 1736000000003; pending := [] |} ""
               _ _ _ _ _ _ _ _ _ _ _ _ _)).
  - reflexivity.
  - apply sample_subscription. discriminate.
  - reflexivity.
  - reflexivity.
  - reflexivity.
  - reflexivity.
  - reflexivity.
  - reflexivity.
  - reflexivity.
  - reflexivity.
  - reflexivity.
  - reflexivity.
  - reflexivity.
Defined.

(** X21 at [lost_script], for an email that starts with a lone surrogate:
    the create is refused as a duplicate, the email cannot be encoded, and
    the create is the only request made. *)
Lemma malformed_email_is_server_error_witness :
  fst (handleSubscribe "POST" [lone_surrogate_text] (boot lost_script))
  = Return {| status := 500; cache_control := None;
              body := ErrorJson "URI malformed" |}
  /\ requests (snd (handleSubscribe "POST" [lone_surrogate_text] (boot lost_script)))
     = [create_request "bd-key" (JStr lone_surrogate_email) (JStr "tagA")
          (JStr "Name") JNull 1736000000000].
Proof.
  pose proof (malformed_email_is_server_error [lone_surrogate_text]
                (boot lost_script)
                (snd (subscribeToButtondown (JStr lone_surrogate_email) (JStr "tagA")
                        (JStr "Name") JNull (boot lost_script)))
                (sample_body lone_surrogate_email "tagA")
                lone_surrogate_email "tagA" "Name"
                (Error "That email address is already subscribed.")
                (Error "URI malformed")) as Hreply.
  rewrite Hreply.
  - split; reflexivity.
  - reflexivity.
  - constructor; try reflexivity; discriminate.
  - reflexivity.
  - reflexivity.
  - reflexivity.
Defined.

(** X15 with built-ins that parse a body whose [email] is [["@"]]. *)
Lemma array_email_passes_validation_witness :
  exists rest,
    requests (snd (@handleSubscribe script array_builtins script_upstream
                     "POST" [array_text] (boot open_script)))
    = (@create_request array_builtins "bd-key" (JArr [JStr "@"]) (JStr "tagA")
         (JStr "Name") JNull 1736000000000 :: rest)%list.
Proof.
  refine (@array_email_passes_validation script array_builtins script_upstream
            [array_text] (boot open_script) array_body [JStr "@"] "bd-key"
            _ _ _ _ _ _ _).
  - reflexivity.
  - reflexivity.
  - left. reflexivity.
  - reflexivity.
  - reflexivity.
  - reflexivity.
  - discriminate.
Defined.

(** X17 at a GET of a path that is no API path and no file. *)
Lemma static_paths_stay_local_witness :
  exists out,
    server {| req_url := Some "/nothing"; req_host := None; req_method := "GET";
              req_chunks := [] |} (boot lost_script)
    = (Return out, boot lost_script)
    /\ (out = Text 404 "Not Found" \/ exists ct cors p, out = FileStream ct cors p)
    /\ ("GET" <> "GET" -> out = Text 404 "Not Found").
Proof.
  refine (static_paths_stay_local
            {| req_url := Some "/nothing"; req_host := None; req_method := "GET";
               req_chunks := [] |} (boot lost_script) "/nothing" "/nothing"
            _ _ _ _ _).
  - reflexivity.
  - discriminate.
  - reflexivity.
  - discriminate.
  - discriminate.
Defined.

(** X18 at a GET of [/assets/app.js]. *)
Lemma served_file_exists_witness :
  boot lost_script = boot lost_script
  /\ "GET" = "GET"
  /\ fs_existsSync lost_script "/srv/assets/app.js" = true
  /\ exists url pathname,
       Some "/assets/app.js" = Some url
       /\ URL_pathname url "http://example.org" = Return pathname
       /\ (((pathname = "/" \/ pathname = "/index.html")
            /\ "/srv/assets/app.js" = path_join ASSETS_DIR "mortgage-calculator.html"
            /\ "application/javascript" = "text/html" /\ true = false)
           \/ (starts_with "/assets/" pathname = true
               /\ "/srv/assets/app.js" = path_join script_dirname (slice1 pathname)
               /\ fs_isFile lost_script "/srv/assets/app.js" = true
               /\ true = true
               /\ "application/javascript"
                  = content_type_of
                      (String_toLowerCase (path_extname "/srv/assets/app.js")))).
Proof.
  refine (served_file_exists
            {| req_url := Some "/assets/app.js"; req_host := Some "example.org";
               req_method := "GET"; req_chunks := [] |}
            (boot lost_script) (boot lost_script)
            "application/javascript" true "/srv/assets/app.js" _).
  reflexivity.
Defined.
